(** * skynet-accounts: API keys, JWT handling, login and quota checks

    A shallow embedding of the Go packages [database] (public and private
    API keys), [jwt] (token issuance, validation and field extraction) and
    [api] (the login handler and the quota check), together with the
    properties the specification states about them.

    Conventions of the embedding:
    - a Go function returning [(T, error)] returns an [outcome T]: [Ok t]
      for a nil error, [Err e] for a non-nil one, and [Panic msg] when the
      function panics (a failed single-valued type assertion, a nil
      dereference);
    - code that talks to MongoDB threads the database value explicitly;
    - [bson.M] documents and Go maps decoded from JSON are [gmap string _];
    - Go's [int], [int64] and Unix times are [Z]; none of the modelled code
      does arithmetic that could wrap. *)

From stdpp Require Import gmap strings list fin_maps.
From Stdlib Require Import ZArith Lia Permutation Ascii.

Set Warnings "-register-all".
Set Default Proof Using "Type".

Open Scope Z_scope.

(** ** Errors and outcomes *)

(** Go [error] values.  Sentinel errors that the code compares or returns
    by identity have a constructor each; [ErrorNew] is [errors.New] and
    [ErrorContext] is [errors.AddContext]. *)
Inductive error : Type :=
| ErrorNew (msg : string)
| ErrorContext (e : error) (ctx : string)
| ErrMaxNumAPIKeysExceeded
| ErrInvalidSkylink
| ErrNoDocuments
| ErrInvalidHex
| ErrTokenExpired
| ErrDriver (msg : string)
| ErrServer (msg : string)
| ErrIO (msg : string)
| ErrJSON (msg : string)
| ErrJWT (msg : string).

Inductive outcome (A : Type) : Type :=
| Ok (a : A)
| Err (e : error)
| Panic (msg : string).

Arguments Ok {A} a.
Arguments Err {A} e.
Arguments Panic {A} msg.

#[global] Instance outcome_ret : MRet outcome := fun A a => Ok a.

#[global] Instance outcome_bind : MBind outcome := fun A B k x =>
  match x with
  | Ok a => k a
  | Err e => Err e
  | Panic msg => Panic msg
  end.

(** ** primitive.ObjectID *)

Module primitive.

(** A 12-byte identifier, read as a big-endian number; the all-zero value
    is the zero ObjectID. *)
Definition ObjectID : Type := N.

Definition IsZero (id : ObjectID) : bool := N.eqb id 0.

Definition hexDigit (c : ascii) : option N :=
  let n := N_of_ascii c in
  if (48 <=? n)%N && (n <=? 57)%N then Some (n - 48)%N
  else if (97 <=? n)%N && (n <=? 102)%N then Some (n - 87)%N
  else if (65 <=? n)%N && (n <=? 70)%N then Some (n - 55)%N
  else None.

Fixpoint hexValue (s : string) (acc : N) : option N :=
  match s with
  | EmptyString => Some acc
  | String c s' =>
      match hexDigit c with
      | Some d => hexValue s' (16 * acc + d)%N
      | None => None
      end
  end.

(** [primitive.ObjectIDFromHex]: exactly 24 hexadecimal digits. *)
Definition ObjectIDFromHex (s : string) : outcome ObjectID :=
  if Nat.eqb (String.length s) 24 then
    match hexValue s 0%N with
    | Some n => Ok n
    | None => Err ErrInvalidHex
    end
  else Err ErrInvalidHex.

End primitive.

(** ** BSON values *)

Module bson.

Inductive Value : Type :=
| VString (s : string)
| VObjectID (id : primitive.ObjectID)
| VDateTime (t : Z)
| VArray (l : list Value)
| VDocument (d : gmap string Value).

(** [bson.M] *)
Abbreviation M := (gmap string Value).

(** Equality of scalar values; the queries of this package compare
    strings and object ids only, compound values never compare equal. *)
Definition scalar_eqb (v w : Value) : bool :=
  match v, w with
  | VString a, VString b => String.eqb a b
  | VObjectID a, VObjectID b => N.eqb a b
  | VDateTime a, VDateTime b => Z.eqb a b
  | _, _ => false
  end.

Definition strings (l : list string) : Value := VArray (VString <$> l).

(** Decoding a document field into a Go struct field: an absent field
    leaves the zero value, a value of another BSON type is an error.
    A datetime is kept as BSON has it. *)
Definition decodeObjectID (d : M) (k : string) : outcome primitive.ObjectID :=
  match d !! k with
  | None => Ok 0%N
  | Some (VObjectID id) => Ok id
  | Some _ => Err (ErrDriver "cannot decode into an ObjectID")
  end.

Definition decodeString (d : M) (k : string) : outcome string :=
  match d !! k with
  | None => Ok ""
  | Some (VString s) => Ok s
  | Some _ => Err (ErrDriver "cannot decode into a string")
  end.

Definition zeroDateTime : Z := -62135596800000.

Definition decodeDateTime (d : M) (k : string) : outcome Z :=
  match d !! k with
  | None => Ok zeroDateTime
  | Some (VDateTime t) => Ok t
  | Some _ => Err (ErrDriver "cannot decode into a time.Time")
  end.

Fixpoint decodeStringElems (l : list Value) : outcome (list string) :=
  match l with
  | [] => Ok []
  | VString s :: rest => ss ← decodeStringElems rest; Ok (s :: ss)
  | _ :: _ => Err (ErrDriver "cannot decode into a string")
  end.

Definition decodeStrings (d : M) (k : string) : outcome (list string) :=
  match d !! k with
  | None => Ok []
  | Some (VArray l) => decodeStringElems l
  | Some _ => Err (ErrDriver "cannot decode into a slice")
  end.

End bson.

(** ** The document store (mongo driver and server) *)

Module mongo.
Import bson.

(** A collection is the sequence of its documents in natural order. *)
Definition Collection : Type := list M.

Definition field_matches (doc : M) (k : string) (v : Value) : bool :=
  match doc !! k with
  | Some w => scalar_eqb v w
  | None => false
  end.

(** An equality filter: every field of the filter is present in the
    document with an equal value. *)
Definition matches (filter doc : M) : bool :=
  bool_decide (map_Forall (fun k v => field_matches doc k v = true) filter).

(** The filter selects no document of the collection. *)
Definition unmatched (filter : M) (c : Collection) : Prop :=
  Forall (fun d => matches filter d = false) c.

Definition CountDocuments (c : Collection) (filter : M) : outcome Z :=
  Ok (Z.of_nat (length (List.filter (matches filter) c))).

Record InsertOneResult : Type := { InsertedID : Value }.
Record UpdateResult : Type := { MatchedCount : Z }.
Record DeleteResult : Type := { DeletedCount : Z }.

(** [InsertOne]: a document without [_id] gets the freshly generated
    [fresh] one. *)
Definition InsertOne (c : Collection) (doc : M) (fresh : primitive.ObjectID)
  : outcome (InsertOneResult * Collection) :=
  match doc !! "_id" with
  | Some id =>
      if existsb (fun d => field_matches d "_id" id) c
      then Err (ErrServer "E11000 duplicate key error")
      else Ok ({| InsertedID := id |}, c ++ [doc])
  | None =>
      Ok ({| InsertedID := VObjectID fresh |},
          c ++ [<["_id" := VObjectID fresh]> doc])
  end.

Definition hasDollarPrefix (k : string) : bool :=
  match k with
  | String.String c _ => Ascii.eqb c "$"%char
  | EmptyString => false
  end.

(** The driver refuses an update document whose key is not an update
    operator before anything is sent to the server.  (The driver looks
    at the first marshalled element; the update documents of this
    package have one key.) *)
Definition ensureDollarKey (update : M) : outcome unit :=
  if bool_decide (update = ∅)
  then Err (ErrDriver "update document must have at least one element")
  else if bool_decide (map_Forall (fun k _ => hasDollarPrefix k = true) update)
  then Ok tt
  else Err (ErrDriver "update document must contain key beginning with '$'").

Definition arrayOf (doc : M) (field : string) : outcome (list Value) :=
  match doc !! field with
  | None => Ok []
  | Some (VArray l) => Ok l
  | Some _ => Err (ErrServer "field must be an array")
  end.

(** [$push]: [{field: {$each: [..]}}] appends every element, a plain
    value is appended as one element. *)
Definition applyPush (field : string) (spec : Value) (doc : M) : outcome M :=
  l ← arrayOf doc field;
  match spec with
  | VDocument d =>
      match d !! "$each" with
      | Some (VArray vs) => Ok (<[field := VArray (l ++ vs)]> doc)
      | Some _ => Err (ErrServer "$each needs an array")
      | None => Ok (<[field := VArray (l ++ [spec])]> doc)
      end
  | _ => Ok (<[field := VArray (l ++ [spec])]> doc)
  end.

(** [$pull]: [{field: {$in: [..]}}] removes every element equal to one
    of the listed values, a plain value removes the elements equal to it. *)
Definition applyPull (field : string) (spec : Value) (doc : M) : outcome M :=
  match doc !! field with
  | None => Ok doc
  | Some (VArray l) =>
      match spec with
      | VDocument d =>
          match d !! "$in" with
          | Some (VArray vs) =>
              Ok (<[field :=
                     VArray (List.filter
                              (fun x => negb (existsb (fun v => scalar_eqb v x) vs)) l)]> doc)
          | Some _ => Err (ErrServer "$in needs an array")
          | None => Err (ErrServer "unsupported $pull condition")
          end
      | _ =>
          Ok (<[field := VArray (List.filter (fun x => negb (scalar_eqb spec x)) l)]> doc)
      end
  | Some _ => Err (ErrServer "cannot apply $pull to a non-array value")
  end.

Definition applyFields (f : string -> Value -> M -> outcome M)
    (spec : Value) (doc : M) : outcome M :=
  match spec with
  | VDocument fields =>
      map_fold (fun k v acc => d ← acc; f k v d) (Ok doc) fields
  | _ => Err (ErrServer "modifiers operate on fields")
  end.

Definition applyOperator (op : string) (spec : Value) (doc : M) : outcome M :=
  if String.eqb op "$push" then applyFields applyPush spec doc
  else if String.eqb op "$pull" then applyFields applyPull spec doc
  else if String.eqb op "$set"
  then applyFields (fun k v d => Ok (<[k := v]> d)) spec doc
  else Err (ErrServer "unknown modifier").

Definition applyUpdate (update doc : M) : outcome M :=
  map_fold (fun op spec acc => d ← acc; applyOperator op spec d) (Ok doc) update.

(** The first document matching the filter is updated ([Upsert] is
    false at every call site). *)
Fixpoint updateFirst (filter update : M) (c : Collection)
  : outcome (UpdateResult * Collection) :=
  match c with
  | [] => Ok ({| MatchedCount := 0 |}, [])
  | d :: ds =>
      if matches filter d
      then (d' ← applyUpdate update d;
            Ok ({| MatchedCount := 1 |}, d' :: ds))
      else ('(r, ds') ← updateFirst filter update ds;
            Ok (r, d :: ds'))
  end.

Definition UpdateOne (c : Collection) (filter update : M)
  : outcome (UpdateResult * Collection) :=
  _ ← ensureDollarKey update;
  updateFirst filter update c.

Fixpoint deleteFirst (filter : M) (c : Collection) : Z * Collection :=
  match c with
  | [] => (0, [])
  | d :: ds =>
      if matches filter d then (1, ds)
      else let '(n, ds') := deleteFirst filter ds in (n, d :: ds')
  end.

Definition DeleteOne (c : Collection) (filter : M)
  : outcome (DeleteResult * Collection) :=
  let '(n, c') := deleteFirst filter c in
  Ok ({| DeletedCount := n |}, c').

(** [FindOne]: the first selected document; the result's [Err()] is
    [ErrNoDocuments] when there is none. *)
Definition FindOne (c : Collection) (filter : M) : outcome M :=
  match List.find (matches filter) c with
  | Some d => Ok d
  | None => Err ErrNoDocuments
  end.

(** [Find] with the cursor drained: the selected documents in order. *)
Definition Find (c : Collection) (filter : M) : outcome (list M) :=
  Ok (List.filter (matches filter) c).

(** The document [d'] is [d] except that the array under [field], if any,
    may have got further elements at its end. *)
Definition grownAt (field : string) (d d' : M) : Prop :=
  (forall k, k <> field -> d' !! k = d !! k) /\
  (forall l, d !! field = Some (VArray l) ->
             exists l', d' !! field = Some (VArray (l ++ l'))).

End mongo.

(** ** Package database: users and API keys *)

Module database.
Import bson mongo.

(** [database.User], with the fields the code under study reads or writes. *)
Module User.
Record t : Type := {
  ID : primitive.ObjectID;
  Email : string;
  Sub : string;
  PasswordHash : string;
  Tier : Z;
  QuotaExceeded : bool
}.
End User.

(** [PubAPIKey] and [APIKey] are base64URL strings. *)
Definition PubAPIKey : Type := string.
Definition APIKey : Type := string.

Module PubAPIKeyRecord.
Record t : Type := {
  ID : primitive.ObjectID;
  UserID : primitive.ObjectID;
  Key : PubAPIKey;
  Skylinks : list string;
  CreatedAt : Z
}.

Definition withID (r : t) (id : primitive.ObjectID) : t :=
  {| ID := id; UserID := UserID r; Key := Key r;
     Skylinks := Skylinks r; CreatedAt := CreatedAt r |}.

Definition withSkylinks (r : t) (skylinks : list string) : t :=
  {| ID := ID r; UserID := UserID r; Key := Key r;
     Skylinks := skylinks; CreatedAt := CreatedAt r |}.

(** The bson struct tags: [_id,omitempty], [user_id], [key],
    [skylinks], [created_at]. *)
Definition marshal (r : t) : M :=
  let d : M :=
    {[ "user_id" := VObjectID (UserID r);
       "key" := VString (Key r);
       "skylinks" := strings (Skylinks r);
       "created_at" := VDateTime (CreatedAt r) ]} in
  if primitive.IsZero (ID r) then d else <["_id" := VObjectID (ID r)]> d.

(** Decoding a stored document ([Decode], [Cursor.All]); fields the
    struct does not declare are ignored. *)
Definition unmarshal (d : M) : outcome t :=
  id ← decodeObjectID d "_id";
  uid ← decodeObjectID d "user_id";
  k ← decodeString d "key";
  sl ← decodeStrings d "skylinks";
  at' ← decodeDateTime d "created_at";
  Ok {| ID := id; UserID := uid; Key := k; Skylinks := sl; CreatedAt := at' |}.

(** The records agree on everything but the creation time, which a stored
    document keeps at the precision of a BSON datetime. *)
Definition agree (r r' : t) : Prop :=
  ID r = ID r' /\ UserID r = UserID r' /\ Key r = Key r' /\ Skylinks r = Skylinks r'.
End PubAPIKeyRecord.

Module APIKeyRecord.
Record t : Type := {
  ID : primitive.ObjectID;
  UserID : primitive.ObjectID;
  Key : APIKey;
  CreatedAt : Z
}.

Definition withID (r : t) (id : primitive.ObjectID) : t :=
  {| ID := id; UserID := UserID r; Key := Key r; CreatedAt := CreatedAt r |}.

Definition marshal (r : t) : M :=
  let d : M :=
    {[ "user_id" := VObjectID (UserID r);
       "key" := VString (Key r);
       "created_at" := VDateTime (CreatedAt r) ]} in
  if primitive.IsZero (ID r) then d else <["_id" := VObjectID (ID r)]> d.

Definition unmarshal (d : M) : outcome t :=
  id ← decodeObjectID d "_id";
  uid ← decodeObjectID d "user_id";
  k ← decodeString d "key";
  at' ← decodeDateTime d "created_at";
  Ok {| ID := id; UserID := uid; Key := k; CreatedAt := at' |}.

(** The records agree on everything but the creation time. *)
Definition agree (r r' : t) : Prop :=
  ID r = ID r' /\ UserID r = UserID r' /\ Key r = Key r'.
End APIKeyRecord.

(** Constants and helpers of the package that are declared outside the
    files under study: the per-user cap on API keys and the syntactic
    check of a skylink. *)
Class Params : Type := {
  MaxNumAPIKeysPerUser : Z;
  ValidSkylinkHash : string -> bool
}.

(** The handle [*DB]: the two collections this code uses and the count
    of object ids the driver has generated so far. *)
Record DB : Type := {
  staticAPIKeys : Collection;
  staticPubAPIKeys : Collection;
  generated : N
}.

Definition setAPIKeys (db : DB) (c : Collection) : DB :=
  {| staticAPIKeys := c; staticPubAPIKeys := staticPubAPIKeys db;
     generated := generated db |}.

Definition setPubAPIKeys (db : DB) (c : Collection) : DB :=
  {| staticAPIKeys := staticAPIKeys db; staticPubAPIKeys := c;
     generated := generated db |}.

Definition nextObjectID (db : DB) : primitive.ObjectID * DB :=
  let id := N.succ (generated db) in
  (id, {| staticAPIKeys := staticAPIKeys db;
          staticPubAPIKeys := staticPubAPIKeys db;
          generated := id |}).

Section WithParams.
Context {params : Params}.

(** [for _, s := range skylinks { if !ValidSkylinkHash(s) { return
    ErrInvalidSkylink } }] *)
Fixpoint validateSkylinks (skylinks : list string) : outcome unit :=
  match skylinks with
  | [] => Ok tt
  | s :: rest =>
      if negb (ValidSkylinkHash s) then Err ErrInvalidSkylink
      else validateSkylinks rest
  end.

(** [PubAPIKeyCreate]; [now] is [time.Now().UTC()] and [rnd] is the
    base64URL encoding of [fastrand.Bytes(PubKeySize)]. *)
Definition PubAPIKeyCreate (db : DB) (user : User.t) (skylinks : list string)
    (now : Z) (rnd : string) : outcome PubAPIKeyRecord.t * DB :=
  if primitive.IsZero (User.ID user) then (Err (ErrorNew "invalid user"), db)
  else
    match CountDocuments (staticPubAPIKeys db)
            {[ "user_id" := VObjectID (User.ID user) ]} with
    | Err e =>
        (Err (ErrorContext e "failed to ensure user can create a new API key"), db)
    | Panic msg => (Panic msg, db)
    | Ok n =>
        if n >? MaxNumAPIKeysPerUser then (Err ErrMaxNumAPIKeysExceeded, db)
        else
          match validateSkylinks skylinks with
          | Err e => (Err e, db)
          | Panic msg => (Panic msg, db)
          | Ok _ =>
              let pakRec :=
                {| PubAPIKeyRecord.ID := 0%N;
                   PubAPIKeyRecord.UserID := User.ID user;
                   PubAPIKeyRecord.Key := rnd;
                   PubAPIKeyRecord.Skylinks := skylinks;
                   PubAPIKeyRecord.CreatedAt := now |} in
              let '(fresh, db1) := nextObjectID db in
              match InsertOne (staticAPIKeys db1)
                      (PubAPIKeyRecord.marshal pakRec) fresh with
              | Err e => (Err e, db)
              | Panic msg => (Panic msg, db)
              | Ok (ior, c) =>
                  match InsertedID ior with
                  | VObjectID id =>
                      (Ok (PubAPIKeyRecord.withID pakRec id), setAPIKeys db1 c)
                  | _ => (Panic "interface conversion", setAPIKeys db1 c)
                  end
              end
          end
    end.

(** [PubAPIKeyUpdate] *)
Definition PubAPIKeyUpdate (db : DB) (user : User.t) (pak : PubAPIKey)
    (skylinks : list string) : outcome unit * DB :=
  if primitive.IsZero (User.ID user) then (Err (ErrorNew "invalid user"), db)
  else
    match validateSkylinks skylinks with
    | Err e => (Err e, db)
    | Panic msg => (Panic msg, db)
    | Ok _ =>
        let filter : M :=
          {[ "key" := VString pak; "user_id" := VObjectID (User.ID user) ]} in
        let update : M := {[ "skylinks" := strings skylinks ]} in
        match UpdateOne (staticPubAPIKeys db) filter update with
        | Err e => (Err e, db)
        | Panic msg => (Panic msg, db)
        | Ok (_, c) => (Ok tt, setPubAPIKeys db c)
        end
    end.

(** [PubAPIKeyPatch] *)
Definition PubAPIKeyPatch (db : DB) (user : User.t) (pak : PubAPIKey)
    (addSkylinks removeSkylinks : list string) : outcome unit * DB :=
  if primitive.IsZero (User.ID user) then (Err (ErrorNew "invalid user"), db)
  else
    match validateSkylinks (addSkylinks ++ removeSkylinks) with
    | Err e => (Err e, db)
    | Panic msg => (Panic msg, db)
    | Ok _ =>
        (* First, add all new skylinks to the record. *)
        let step1 : outcome unit * DB :=
          if (0 <? Z.of_nat (length addSkylinks)) then
            let filter : M := {[ "key" := VString pak ]} in
            let update : M :=
              {[ "$push" :=
                   VDocument {[ "skylinks" :=
                     VDocument {[ "$each" := strings addSkylinks ]} ]} ]} in
            match UpdateOne (staticPubAPIKeys db) filter update with
            | Err e => (Err e, db)
            | Panic msg => (Panic msg, db)
            | Ok (_, c) => (Ok tt, setPubAPIKeys db c)
            end
          else (Ok tt, db) in
        match step1 with
        | (Err e, db1) => (Err e, db1)
        | (Panic msg, db1) => (Panic msg, db1)
        | (Ok _, db1) =>
            (* Then, remove all skylinks that need to be removed. *)
            if (0 <? Z.of_nat (length removeSkylinks)) then
              let filter : M := {[ "key" := VString pak ]} in
              let update : M :=
                {[ "pull" :=
                     VDocument {[ "skylinks" :=
                       VDocument {[ "$in" := strings addSkylinks ]} ]} ]} in
              match UpdateOne (staticPubAPIKeys db1) filter update with
              | Err e => (Err e, db1)
              | Panic msg => (Panic msg, db1)
              | Ok (_, c) => (Ok tt, setPubAPIKeys db1 c)
              end
            else (Ok tt, db1)
        end
    end.

(** [PubAPIKeyDelete] *)
Definition PubAPIKeyDelete (db : DB) (user : User.t) (pakID : string)
    : outcome unit * DB :=
  if primitive.IsZero (User.ID user) then (Err (ErrorNew "invalid user"), db)
  else
    match primitive.ObjectIDFromHex pakID with
    | Err e => (Err (ErrorContext e "invalid API key ID"), db)
    | Panic msg => (Panic msg, db)
    | Ok id =>
        let filter : M :=
          {[ "_id" := VObjectID id; "user_id" := VObjectID (User.ID user) ]} in
        match DeleteOne (staticPubAPIKeys db) filter with
        | Err e => (Err e, db)
        | Panic msg => (Panic msg, db)
        | Ok (dr, c) =>
            if DeletedCount dr =? 0 then (Err ErrNoDocuments, setPubAPIKeys db c)
            else (Ok tt, setPubAPIKeys db c)
        end
    end.

End WithParams.

(** [APIKeyCreate] *)
Definition APIKeyCreate (db : DB) (user : User.t) (now : Z) (rnd : string)
    : outcome APIKeyRecord.t * DB :=
  if primitive.IsZero (User.ID user) then (Err (ErrorNew "invalid user"), db)
  else
    let ak :=
      {| APIKeyRecord.ID := 0%N;
         APIKeyRecord.UserID := User.ID user;
         APIKeyRecord.Key := rnd;
         APIKeyRecord.CreatedAt := now |} in
    let '(fresh, db1) := nextObjectID db in
    match InsertOne (staticAPIKeys db1) (APIKeyRecord.marshal ak) fresh with
    | Err e => (Err e, db)
    | Panic msg => (Panic msg, db)
    | Ok (ior, c) =>
        match InsertedID ior with
        | VObjectID id => (Ok (APIKeyRecord.withID ak id), setAPIKeys db1 c)
        | _ => (Panic "interface conversion", setAPIKeys db1 c)
        end
    end.

(** [APIKeyDelete] *)
Definition APIKeyDelete (db : DB) (user : User.t) (ak : string)
    : outcome unit * DB :=
  if primitive.IsZero (User.ID user) then (Err (ErrorNew "invalid user"), db)
  else
    let filter : M :=
      {[ "key" := VString ak; "user_id" := VObjectID (User.ID user) ]} in
    match DeleteOne (staticAPIKeys db) filter with
    | Err e => (Err e, db)
    | Panic msg => (Panic msg, db)
    | Ok (_, c) => (Ok tt, setAPIKeys db c)
    end.

(** [c.All(ctx, &records)]: every document is decoded, the first failure
    is returned. *)
Fixpoint decodeAll {A : Type} (decode : M -> outcome A) (docs : list M)
    : outcome (list A) :=
  match docs with
  | [] => Ok []
  | d :: rest =>
      r ← decode d;
      rs ← decodeAll decode rest;
      Ok (r :: rs)
  end.

(** [PubAPIKeyGetRecord] *)
Definition PubAPIKeyGetRecord (db : DB) (pak : PubAPIKey)
    : outcome PubAPIKeyRecord.t :=
  match FindOne (staticPubAPIKeys db) {[ "key" := VString pak ]} with
  | Err e => Err e
  | Panic msg => Panic msg
  | Ok d =>
      match PubAPIKeyRecord.unmarshal d with
      | Err e => Err e
      | Panic msg => Panic msg
      | Ok pakRec => Ok pakRec
      end
  end.

(** [PubAPIKeyList] *)
Definition PubAPIKeyList (db : DB) (user : User.t)
    : outcome (list PubAPIKeyRecord.t) :=
  if primitive.IsZero (User.ID user) then Err (ErrorNew "invalid user")
  else
    match Find (staticPubAPIKeys db) {[ "user_id" := VObjectID (User.ID user) ]} with
    | Err e => Err e
    | Panic msg => Panic msg
    | Ok c =>
        match decodeAll PubAPIKeyRecord.unmarshal c with
        | Err e => Err e
        | Panic msg => Panic msg
        | Ok paks => Ok paks
        end
    end.

(** [APIKeyList] *)
Definition APIKeyList (db : DB) (user : User.t) : outcome (list APIKeyRecord.t) :=
  if primitive.IsZero (User.ID user) then Err (ErrorNew "invalid user")
  else
    match Find (staticAPIKeys db) {[ "user_id" := VObjectID (User.ID user) ]} with
    | Err e => Err e
    | Panic msg => Panic msg
    | Ok c =>
        match decodeAll APIKeyRecord.unmarshal c with
        | Err e => Err e
        | Panic msg => Panic msg
        | Ok aks => Ok aks
        end
    end.

(** [database.DBCredentials] *)
Module DBCredentials.
Record t : Type := {
  User : string;
  Password : string;
  Host : string;
  Port : string
}.
End DBCredentials.

End database.

(** ** The token library (lestrrat-go/jwx: jwt, jwk, jwa) *)

Module jwx.

(** *** Go values held in an [interface{}]

    The dynamic types that occur in a token's claims: what
    [encoding/json] decodes into an [interface{}] (nil, bool, float64,
    string, [[]interface{}], [map[string]interface{}]), [time.Time] for
    the registered time claims, and the struct [tokenSession] that
    [tokenForUser] stores.  A Go map value may be the nil map: [AMap None]. *)

Record tokenTraits : Type := { Email : string }.
Record tokenIdentity : Type := { Traits : tokenTraits }.
Record tokenSession : Type := { Active : bool; Identity : tokenIdentity }.

Inductive any : Type :=
| ANil
| ABool (b : bool)
| AFloat64 (n : Z)
| AString (s : string)
| ATime (t : Z)
| ASlice (l : list any)
| AMap (m : option (gmap string any))
| ASession (s : tokenSession).

(** [v.(string)] and [v.(map[string]interface{})], the single-valued
    forms, which panic on any other dynamic type (nil included). *)
Definition assertString (v : any) : outcome string :=
  match v with
  | AString s => Ok s
  | _ => Panic "interface conversion: interface {} is not string"
  end.

Definition assertMap (v : any) : outcome (option (gmap string any)) :=
  match v with
  | AMap m => Ok m
  | _ => Panic "interface conversion: interface {} is not map[string]interface {}"
  end.

(** [m[k]]: a missing key (and any key of the nil map) yields the nil
    interface. *)
Definition index (m : option (gmap string any)) (k : string) : any :=
  match m with
  | Some g => default ANil (g !! k)
  | None => ANil
  end.

Definition isNilMap (m : option (gmap string any)) : bool :=
  match m with
  | Some _ => false
  | None => true
  end.

(** The JSON object a [tokenSession] marshals to, decoded generically. *)
Definition sessionJSON (s : tokenSession) : any :=
  AMap (Some {[ "active" := ABool (Active s);
                "identity" :=
                  AMap (Some {[ "traits" :=
                    AMap (Some {[ "email" := AString (Email (Traits (Identity s))) ]}) ]}) ]}).

Section JSON.
(** [time.Time]'s JSON text (RFC 3339), produced by the standard
    library. *)
Variable formatTime : Z -> string.

(** What [encoding/json] decodes into an [interface{}] from the
    encoding of [v]. *)
Fixpoint jsonValue (v : any) : any :=
  match v with
  | ANil => ANil
  | ABool b => ABool b
  | AFloat64 n => AFloat64 n
  | AString s => AString s
  | ATime t => AString (formatTime t)
  | ASlice l => ASlice (jsonValue <$> l)
  | AMap None => ANil
  | AMap (Some g) => AMap (Some (jsonValue <$> g))
  | ASession s => sessionJSON s
  end.
End JSON.

(** *** Tokens ([jwt.Token]) *)

(** Registered claims are typed fields, everything else is a private
    claim.  Times are Unix seconds. *)
Record Token : Type := {
  subject : option string;
  issuer : option string;
  expiration : option Z;
  issuedAt : option Z;
  privateClaims : gmap string any
}.

Definition New : Token :=
  {| subject := None; issuer := None; expiration := None; issuedAt := None;
     privateClaims := ∅ |}.

(** [t.Get(name)] *)
Definition Get (t : Token) (name : string) : option any :=
  if String.eqb name "sub" then AString <$> subject t
  else if String.eqb name "iss" then AString <$> issuer t
  else if String.eqb name "exp" then ATime <$> expiration t
  else if String.eqb name "iat" then ATime <$> issuedAt t
  else privateClaims t !! name.

(** [time.Time] values are nanoseconds since the Unix epoch; [UTC()] does
    not change the instant. *)
Definition second : Z := 1000000000.
Definition zeroTime : Z := -62135596800 * second.
Definition Unix (t : Z) : Z := t `div` second.

(** [t.Expiration()]: the zero [time.Time] when the claim is unset. *)
Definition Expiration (t : Token) : Z :=
  match expiration t with
  | Some sec => sec * second
  | None => zeroTime
  end.

(** [a.Before(b)] *)
Definition Before (a b : Z) : bool := a <? b.

(** *** Keys, signatures and the compact serialization *)

Inductive Material : Type :=
| PrivateKey (d : N)
| PublicKey (q : N)
| SymmetricKey (k : N).

(** [jwk.Key] *)
Module Key.
Record t : Type := {
  KeyID : string;
  Algorithm : string;
  material : Material
}.
End Key.

Record Header : Type := { alg : string; kid : string }.

Definition Signature : Type := N.

(** The signature primitives of the library, which this package only
    calls: deriving a public key, signing and verifying the signing
    input (protected header and claims), and the standard library's
    time formatting. *)
Class Crypto : Type := {
  publicOf : N -> N;
  sign : string -> Material -> Header * Token -> option Signature;
  verify : string -> Material -> Header * Token -> Signature -> bool;
  formatTime : Z -> string
}.

(** A serialized token: either text that is not a three-part signed
    structure with a JSON claim set, or header, claims and signature. *)
Inductive Compact : Type :=
| Malformed (raw : string)
| Signed (h : Header) (claims : Token) (sig : Signature).

(** [jwa.SignatureAlgorithms()] *)
Definition SignatureAlgorithms : list string :=
  ["ES256"; "ES256K"; "ES384"; "ES512"; "EdDSA"; "HS256"; "HS384"; "HS512";
   "none"; "PS256"; "PS384"; "PS512"; "RS256"; "RS384"; "RS512"].

Definition PublicKeyOf {crypto : Crypto} (k : Key.t) : outcome Key.t :=
  match Key.material k with
  | PrivateKey d =>
      Ok {| Key.KeyID := Key.KeyID k; Key.Algorithm := Key.Algorithm k;
            Key.material := PublicKey (publicOf d) |}
  | _ => Ok k
  end.

(** [jwk.PublicSetOf] *)
Fixpoint PublicSetOf {crypto : Crypto} (set : list Key.t) : outcome (list Key.t) :=
  match set with
  | [] => Ok []
  | k :: rest =>
      pk ← PublicKeyOf k;
      prest ← PublicSetOf rest;
      Ok (pk :: prest)
  end.

(** [set.LookupKeyID(kid)] *)
Definition LookupKeyID (set : list Key.t) (id : string) : option Key.t :=
  List.find (fun k => String.eqb (Key.KeyID k) id) set.

(** The claims as they come back from their JSON encoding. *)
Definition encodeClaims {crypto : Crypto} (t : Token) : Token :=
  {| subject := subject t; issuer := issuer t; expiration := expiration t;
     issuedAt := issuedAt t;
     privateClaims := jsonValue formatTime <$> privateClaims t |}.

(** [jwt.Sign(t, alg, key)] *)
Definition Sign {crypto : Crypto} (t : Token) (sigAlgo : string) (key : Key.t)
    : outcome Compact :=
  let h := {| alg := sigAlgo; kid := Key.KeyID key |} in
  let claims := encodeClaims t in
  match sign sigAlgo (Key.material key) (h, claims) with
  | Some s => Ok (Signed h claims s)
  | None => Err (ErrJWT "failed to sign payload")
  end.

(** [jwt.Parse(bytes)]: no verification. *)
Definition Parse (bytes : Compact) : outcome Token :=
  match bytes with
  | Malformed _ => Err (ErrJWT "invalid JWT")
  | Signed _ claims _ => Ok claims
  end.

(** [jwt.Parse(bytes, jwt.WithKeySet(set))]: the key is looked up by the
    header's key id, which has to be there (no default key is configured),
    and the signature is verified with it.  A nil set is refused. *)
Definition ParseWithKeySet {crypto : Crypto} (bytes : Compact) (set : option (list Key.t))
    : outcome Token :=
  match bytes with
  | Malformed _ => Err (ErrJWT "invalid JWT")
  | Signed h claims s =>
      match set with
      | None => Err (ErrJWT "invalid JWK set passed via WithKeySet() option")
      | Some keys =>
          if String.eqb (kid h) "" then
            Err (ErrJWT "failed to find matching key: no key ID specified in token")
          else
            match LookupKeyID keys (kid h) with
            | None => Err (ErrJWT "failed to find matching key")
            | Some k =>
                if verify (Key.Algorithm k) (Key.material k) (h, claims) s
                then Ok claims
                else Err (ErrJWT "failed to verify signature")
            end
      end
  end.

End jwx.

(** ** Package jwt *)

Module jwt.
Import jwx.

Inductive Release : Type := Dev | Testing | Standard.

(** [AccountsJWKSFile], selected by the build. *)
Definition AccountsJWKSFile (r : Release) : string :=
  match r with
  | Dev => "jwks.json"
  | Testing => "fixtures/jwks.json"
  | Standard => "/accounts/conf/jwks.json"
  end.

(** The package-level variables.  A [jwk.Set] variable is an interface
    and starts out nil. *)
Record Globals : Type := {
  AccountsJWKS : option (list Key.t);
  AccountsPublicJWKS : option (list Key.t);
  PortalName : string;
  TTL : Z
}.

Definition initial : Globals :=
  {| AccountsJWKS := None; AccountsPublicJWKS := None;
     PortalName := "https://siasky.net"; TTL := 720 * 3600 |}.

Definition setKeySets (g : Globals) (full pub : option (list Key.t)) : Globals :=
  {| AccountsJWKS := full; AccountsPublicJWKS := pub;
     PortalName := PortalName g; TTL := TTL g |}.

(** The value stored in a [context.Context] under [ctxValue("token")]:
    nothing, a token, or a value of some other type. *)
Inductive ContextValue : Type :=
| NoValue
| TokenValue (t : Token)
| OtherValue (typeName : string).

(** File contents, by what [json.Unmarshal] into a [jwk.Set] makes of
    them: not a key set, or a key set with its keys. *)
Inductive FileContents : Type :=
| NotJWKS (raw : string)
| JWKSDocument (keys : list Key.t).

(** [ioutil.ReadFile] *)
Definition ReadFile (fs : gmap string FileContents) (path : string)
    : outcome FileContents :=
  match fs !! path with
  | Some b => Ok b
  | None => Err (ErrIO "open: no such file or directory")
  end.

(** [json.Unmarshal(b, set)] *)
Definition Unmarshal (b : FileContents) : outcome (list Key.t) :=
  match b with
  | NotJWKS _ => Err (ErrJSON "failed to unmarshal JWK set")
  | JWKSDocument keys => Ok keys
  end.

Section WithCrypto.
Context {crypto : Crypto}.

(** [signatureAlgoAndKey] *)
Definition signatureAlgoAndKey (g : Globals) : outcome (string * Key.t) :=
  match AccountsJWKS g with
  | None => Panic "invalid memory address or nil pointer dereference"
  | Some set =>
      match set !! 0%nat with
      | None => Err (ErrorNew "JWKS is empty")
      | Some key =>
          let sigAlgo :=
            default "" (List.find (fun sa => String.eqb sa (Key.Algorithm key))
                                  SignatureAlgorithms) in
          if String.eqb sigAlgo "" then
            Err (ErrorNew "failed to determine signature algorithm")
          else Ok (sigAlgo, key)
      end
  end.

(** [tokenForUser]; [now] is [time.Now().UTC()].  Setting these claims
    with these Go types does not fail. *)
Definition tokenForUser (g : Globals) (now : Z) (emailAddr sub : string)
    : outcome Token :=
  if String.eqb emailAddr "" || String.eqb sub "" then
    Err (ErrorNew "email and sub cannot be empty")
  else
    let session :=
      {| Active := true;
         Identity := {| Traits := {| Email := emailAddr |} |} |} in
    Ok {| expiration := Some (Unix now + TTL g);
          issuedAt := Some (Unix now);
          issuer := Some (PortalName g);
          subject := Some sub;
          privateClaims := <["session" := ASession session]> (privateClaims New) |}.

(** [TokenForUser] *)
Definition TokenForUser (g : Globals) (now : Z) (email sub : string)
    : outcome Token :=
  '(sigAlgo, key) ← signatureAlgoAndKey g;
  match tokenForUser g now email sub with
  | Err e => Err (ErrorContext e "failed to build token")
  | Panic msg => Panic msg
  | Ok t =>
      match Sign t sigAlgo key with
      | Err _ => Err (ErrorNew "failed to sign token")
      | Panic msg => Panic msg
      | Ok bytes =>
          match Parse bytes with
          | Err _ => Err (ErrorNew "failed to determine serialize token")
          | Panic msg => Panic msg
          | Ok tk => Ok tk
          end
      end
  end.

(** [TokenFields] *)
Definition TokenFields (t : Token) : outcome (string * string * Token) :=
  match Get t "sub" with
  | None => Err (ErrorNew "sub field missing")
  | Some s =>
      s' ← assertString s;
      if String.eqb s' "" then Err (ErrorNew "sub field missing")
      else
        match Get t "session" with
        | None => Err (ErrorNew "session field missing")
        | Some sess =>
            session ← assertMap sess;
            identity ← assertMap (index session "identity");
            traits ← assertMap (index identity "traits");
            email ← (if negb (isNilMap traits)
                     then assertString (index traits "email")
                     else Ok "");
            sub ← assertString s;
            Ok (sub, email, t)
        end
  end.

(** [TokenFromContext]: the deferred [recover] turns a panic of the
    body into an error.  [reflect.TypeOf(nil)] is nil, so reporting the
    type of a missing value panics as well. *)
Definition TokenFromContext (ctx : ContextValue)
    : outcome (string * string * Token) :=
  let body : outcome (string * string * Token) :=
    match ctx with
    | TokenValue t => TokenFields t
    | OtherValue typeName => Err (ErrorNew ("invalid token type: " +:+ typeName))
    | NoValue => Panic "invalid memory address or nil pointer dereference"
    end in
  match body with
  | Panic e => Err (ErrorNew ("failed to parse token from context. error: " +:+ e))
  | r => r
  end.

(** [TokenSerialize] *)
Definition TokenSerialize (g : Globals) (t : Token) : outcome Compact :=
  '(sigAlgo, key) ← signatureAlgoAndKey g;
  Sign t sigAlgo key.

(** [ValidateToken]; [now] is [time.Now().UTC()]. *)
Definition ValidateToken (g : Globals) (now : Z) (t : Compact) : outcome Token :=
  match ParseWithKeySet t (AccountsPublicJWKS g) with
  | Err e => Err e
  | Panic msg => Panic msg
  | Ok token =>
      if Before (Expiration token) now then Err ErrTokenExpired
      else Ok token
  end.

(** [LoadAccountsKeySet]; the log lines are not part of the model. *)
Definition LoadAccountsKeySet (r : Release) (fs : gmap string FileContents)
    (g : Globals) : outcome unit * Globals :=
  match ReadFile fs (AccountsJWKSFile r) with
  | Err e => (Err e, g)
  | Panic msg => (Panic msg, g)
  | Ok b =>
      match Unmarshal b with
      | Err e => (Err e, g)
      | Panic msg => (Panic msg, g)
      | Ok set =>
          (* Cache the key set, then a public version of it. *)
          match PublicSetOf set with
          | Err e => (Err e, setKeySets g None None)
          | Panic msg => (Panic msg, setKeySets g (Some set) (AccountsPublicJWKS g))
          | Ok pub => (Ok tt, setKeySets g (Some set) (Some pub))
          end
      end
  end.

(** [ContextWithToken]; a context is represented by the value it holds
    under [ctxValue("token")], [None] is the nil context, on which
    [context.WithValue] panics. *)
Definition ContextWithToken (ctx : option ContextValue) (token : Token)
    : outcome (option ContextValue) :=
  match ctx with
  | None => Panic "cannot create context from nil parent"
  | Some _ => Ok (Some (TokenValue token))
  end.

(** [UserDetailsFromJWT] *)
Definition UserDetailsFromJWT (ctx : option ContextValue) : outcome (string * string) :=
  match ctx with
  | None => Err (ErrorNew "Invalid context")
  | Some c =>
      '(sub, email, _) ← TokenFromContext c;
      Ok (sub, email)
  end.

(** *** Vocabulary of the statements *)

(** The serialized token [t] carries [claims] under a signature that
    verifies against the key of the cached public set named by its header. *)
Definition verified (g : Globals) (t : Compact) (claims : Token) : Prop :=
  exists h s keys k,
    t = Signed h claims s /\
    AccountsPublicJWKS g = Some keys /\
    kid h <> "" /\
    LookupKeyID keys (kid h) = Some k /\
    verify (Key.Algorithm k) (Key.material k) (h, claims) s = true.

(** With algorithm [sigAlgo] the key [key] signs every input, and its
    public counterpart verifies the signature. *)
Definition signsVerifiably (sigAlgo : string) (key : Key.t) : Prop :=
  forall input : Header * Token,
    exists s pk,
      sign sigAlgo (Key.material key) input = Some s /\
      PublicKeyOf key = Ok pk /\
      verify (Key.Algorithm pk) (Key.material pk) input s = true.

End WithCrypto.

End jwt.

(** ** strconv: decimal integers (64-bit [int]) *)

Module strconv.

Inductive NumError : Type := ErrSyntax | ErrRange.

Definition maxUint64 : Z := 2 ^ 64 - 1.
Definition maxInt64 : Z := 2 ^ 63 - 1.
Definition minInt64 : Z := - 2 ^ 63.

Definition digit (c : ascii) : option Z :=
  let n := Z.of_N (N_of_ascii c) in
  if (48 <=? n) && (n <=? 57) then Some (n - 48) else None.

(** The loop of [ParseUint(s, 10, 64)] from the accumulated value [n]: a
    character that is not a digit is a syntax error, a value beyond 64
    bits stops the scan with the largest value and a range error. *)
Fixpoint parseDigits (s : string) (n : Z) : Z * option NumError :=
  match s with
  | EmptyString => (n, None)
  | String c rest =>
      match digit c with
      | None => (0, Some ErrSyntax)
      | Some d =>
          if 10 * n + d >? maxUint64 then (maxUint64, Some ErrRange)
          else parseDigits rest (10 * n + d)
      end
  end.

Definition ParseUint (s : string) : Z * option NumError :=
  match s with
  | EmptyString => (0, Some ErrSyntax)
  | _ => parseDigits s 0
  end.

(** [ParseInt(s, 10, 64)]: the value and the error. *)
Definition ParseInt (s : string) : Z * option NumError :=
  match s with
  | EmptyString => (0, Some ErrSyntax)
  | String c rest =>
      let neg := Ascii.eqb c "-" in
      let body := if Ascii.eqb c "+" || Ascii.eqb c "-" then rest else s in
      match ParseUint body with
      | (_, Some ErrSyntax) => (0, Some ErrSyntax)
      | (un, _) =>
          if negb neg && (un >=? 2 ^ 63) then (maxInt64, Some ErrRange)
          else if neg && (un >? 2 ^ 63) then (minInt64, Some ErrRange)
          else (if neg then - un else un, None)
      end
  end.

(** [Atoi(s)], which on a 64-bit platform returns what
    [ParseInt(s, 10, 0)] returns (its fast path for short strings computes
    the same value). *)
Definition Atoi (s : string) : Z * option NumError := ParseInt s.

End strconv.

(** ** Package api: the login handler and the quota check *)

Module api.
Import database.

(** [database.UserStats] and [database.TierLimits] *)
Module UserStats.
Record t : Type := {
  NumUploads : Z;
  TotalUploadsSize : Z
}.
End UserStats.

Module TierLimits.
Record t : Type := {
  TierName : string;
  UploadBandwidth : Z;
  DownloadBandwidth : Z;
  MaxUploadSize : Z;
  MaxNumberUploads : Z;
  RegistryDelay : Z;
  Storage : Z
}.
End TierLimits.

(** [http.Request]: the parsed POST form and the headers (cookies and
    the authorization header among them). *)
Module Request.
Record t : Type := {
  PostForm : gmap string (list string);
  Header : gmap string (list string)
}.
End Request.

(** [req.PostFormValue(key)]: the first value of the key, or the empty
    string. *)
Definition PostFormValue (req : Request.t) (key : string) : string :=
  match Request.PostForm req !! key with
  | Some (v :: _) => v
  | _ => ""
  end.

(** What a handler has written to its [http.ResponseWriter], in order. *)
Inductive Write : Type :=
| WError (e : error) (code : Z)
| WSuccess
| WCookie (value : string) (expires : Z).

Definition ResponseWriter : Type := list Write.

Definition StatusUnauthorized : Z := 401.
Definition StatusInternalServerError : Z := 500.

Definition WriteError (w : ResponseWriter) (e : error) (code : Z) : ResponseWriter :=
  w ++ [WError e code].

Definition WriteSuccess (w : ResponseWriter) : ResponseWriter := w ++ [WSuccess].

(** The collaborators of the handlers that are declared outside the files
    under study: the user store (state [S]), the table of tier limits, the
    password hash comparison, the cookie writer, the token lookup in a
    request, and the [jwt] entry points in the revision the handlers call
    (which returns the serialized token next to the parsed one, and takes a
    logger). *)
Class Deps (S : Type) : Type := {
  UserStats : S -> User.t -> outcome UserStats.t;
  UserSave : S -> User.t -> outcome unit * S;
  UserByEmail : S -> string -> bool -> outcome User.t;
  UserLimits : Z -> TierLimits.t;
  hashCompare : string -> string -> outcome unit;
  tokenFromRequest : Request.t -> outcome string;
  writeCookie : ResponseWriter -> string -> Z -> outcome unit * ResponseWriter;
  TokenForUser : string -> string -> outcome (jwx.Token * string);
  ValidateToken : string -> outcome jwx.Token
}.

Section Handlers.
Context {S : Type} {deps : Deps S}.

(** [loginUser] *)
Definition loginUser (w : ResponseWriter) (u : User.t) : outcome ResponseWriter :=
  match TokenForUser (User.Email u) (User.Sub u) with
  | Err e =>
      Ok (WriteError w (ErrorContext e "failed to create a token for user")
            StatusInternalServerError)
  | Panic msg => Panic msg
  | Ok (tk, tkBytes) =>
      match writeCookie w tkBytes (jwx.Unix (jwx.Expiration tk)) with
      | (Err e, w') => Ok (WriteError w' e StatusInternalServerError)
      | (Panic msg, _) => Panic msg
      | (Ok _, w') => Ok (WriteSuccess w')
      end
  end.

(** [loginPOSTCredentials] *)
Definition loginPOSTCredentials (s : S) (w : ResponseWriter) (req : Request.t)
    (email password : string) : outcome ResponseWriter :=
  match UserByEmail s email false with
  | Err e => Ok (WriteError w e StatusUnauthorized)
  | Panic msg => Panic msg
  | Ok u =>
      match hashCompare password (User.PasswordHash u) with
      | Err _ => Ok (WriteError w (ErrorNew "password mismatch") StatusUnauthorized)
      | Panic msg => Panic msg
      | Ok _ => loginUser w u
      end
  end.

(** [loginPOSTToken]; [now] is [time.Now().UTC()]. *)
Definition loginPOSTToken (w : ResponseWriter) (req : Request.t) (now : Z)
    : outcome ResponseWriter :=
  match tokenFromRequest req with
  | Err e => Ok (WriteError w e StatusUnauthorized)
  | Panic msg => Panic msg
  | Ok tokenStr =>
      match ValidateToken tokenStr with
      | Err e => Ok (WriteError w e StatusUnauthorized)
      | Panic msg => Panic msg
      | Ok token =>
          let exp := jwx.Expiration token in
          if exp <? now then
            Ok (WriteError w (ErrorNew "token has expired") StatusUnauthorized)
          else
            match writeCookie w tokenStr (jwx.Unix exp) with
            | (Err e, w') => Ok (WriteError w' e StatusInternalServerError)
            | (Panic msg, _) => Panic msg
            | (Ok _, w') => Ok (WriteSuccess w')
            end
      end
  end.

(** [loginPOST] *)
Definition loginPOST (s : S) (w : ResponseWriter) (req : Request.t) (now : Z)
    : outcome ResponseWriter :=
  let email := PostFormValue req "email" in
  let pw := PostFormValue req "password" in
  if negb (String.eqb email "") && negb (String.eqb pw "") then
    loginPOSTCredentials s w req email pw
  else
    loginPOSTToken w req now.

(** [database.User] with the flag replaced ([u.QuotaExceeded = ...]). *)
Definition setQuotaExceeded (u : User.t) (b : bool) : User.t :=
  {| User.ID := User.ID u; User.Email := User.Email u; User.Sub := User.Sub u;
     User.PasswordHash := User.PasswordHash u; User.Tier := User.Tier u;
     User.QuotaExceeded := b |}.

(** [checkUserQuotas]: the user behind the pointer [u] and the store
    after the call; the log lines are not part of the model. *)
Definition checkUserQuotas (s : S) (u : User.t) : outcome (User.t * S) :=
  match UserStats s u with
  | Err _ => Ok (u, s)
  | Panic msg => Panic msg
  | Ok us =>
      let q := UserLimits (User.Tier u) in
      let quotaExceeded :=
        (UserStats.NumUploads us >? TierLimits.MaxNumberUploads q)
        || (UserStats.TotalUploadsSize us >? TierLimits.Storage q) in
      if negb (Bool.eqb quotaExceeded (User.QuotaExceeded u)) then
        let u' := setQuotaExceeded u quotaExceeded in
        match UserSave s u' with
        | (Panic msg, _) => Panic msg
        | (_, s') => Ok (u', s')
        end
      else Ok (u, s)
  end.

(** *** Vocabulary of the statements *)

(** The usage is over the tier's limits. *)
Definition overQuota (us : UserStats.t) (q : TierLimits.t) : Prop :=
  UserStats.NumUploads us > TierLimits.MaxNumberUploads q \/
  UserStats.TotalUploadsSize us > TierLimits.Storage q.

End Handlers.

(** *** Further handlers and helpers *)

Definition StatusBadRequest : Z := 400.

(** [form.Get(key)] on [url.Values]: the first value of the key, or the
    empty string. *)
Definition formGet (form : gmap string (list string)) (key : string) : string :=
  match form !! key with
  | Some (v :: _) => v
  | _ => ""
  end.

(** [fetchOffset] *)
Definition fetchOffset (form : gmap string (list string)) : outcome Z :=
  let '(offset, _) := strconv.Atoi (formGet form "offset") in
  if offset <? 0 then Err (ErrorNew "Invalid offset")
  else Ok offset.

(** [fetchPageSize]; [DefaultPageSize] is a constant of package database
    declared outside the files under study. *)
Definition fetchPageSize (DefaultPageSize : Z) (form : gmap string (list string))
    : outcome Z :=
  let '(pageSize, _) := strconv.Atoi (formGet form "pageSize") in
  if pageSize <? 0 then Err (ErrorNew "Invalid page size")
  else
    let pageSize := if pageSize =? 0 then DefaultPageSize else pageSize in
    Ok pageSize.

(** [errors.Contains(err, database.ErrInvalidSkylink)]: the error is the
    sentinel or wraps it. *)
Fixpoint ContainsErrInvalidSkylink (e : error) : bool :=
  match e with
  | ErrInvalidSkylink => true
  | ErrorContext e' _ => ContainsErrInvalidSkylink e'
  | _ => false
  end.

(** [database.Skylink], with the fields the handlers read. *)
Module Skylink.
Record t : Type := {
  ID : primitive.ObjectID;
  Size : Z
}.
End Skylink.

(** The store operations behind [trackDownloadPOST], declared outside the
    files under study; each may change the store. *)
Class TrackDeps (S : Type) : Type := {
  DBSkylink : S -> string -> outcome Skylink.t * S;
  DBUserBySub : S -> string -> bool -> outcome User.t * S;
  DBDownloadCreate : S -> User.t -> Skylink.t -> Z -> outcome unit * S
}.

Section MoreHandlers.
Context {S : Type} {deps : Deps S} {track : TrackDeps S}.

(** [TierAnonymous], a constant of package database. *)
Variable TierAnonymous : Z.

(** [logoutPOST]; [ctx] is [req.Context()], [now] is [time.Now().UTC()]. *)
Definition logoutPOST (w : ResponseWriter) (ctx : jwt.ContextValue) (now : Z)
    : outcome ResponseWriter :=
  match jwt.TokenFromContext ctx with
  | Err e => Ok (WriteError w e StatusUnauthorized)
  | Panic msg => Panic msg
  | Ok _ =>
      match writeCookie w "" (jwx.Unix now - 1) with
      | (Err e, w') => Ok (WriteError w' e StatusInternalServerError)
      | (Panic msg, _) => Panic msg
      | (Ok _, w') => Ok (WriteSuccess w')
      end
  end.

(** [userLimitsGET]: the limits handed to [WriteJSON]; [u] is what
    [api.userFromRequest(req)] returns, [None] for nil. *)
Definition userLimitsGET (u : option User.t) : TierLimits.t :=
  match u with
  | None => UserLimits TierAnonymous
  | Some u' =>
      if User.QuotaExceeded u' then UserLimits TierAnonymous
      else UserLimits (User.Tier u')
  end.

(** [trackDownloadPOST]: the response, the store and the skylinks queued
    for the metadata fetcher.  [ctx] is [req.Context()], [parsed] is the
    form after [req.ParseForm()] or its error, [sl] is
    [ps.ByName("skylink")]. *)
Definition trackDownloadPOST (s : S) (w : ResponseWriter) (ctx : jwt.ContextValue)
    (parsed : outcome (gmap string (list string))) (sl : string)
    : outcome (ResponseWriter * S * list primitive.ObjectID) :=
  match jwt.TokenFromContext ctx with
  | Err e => Ok (WriteError w e StatusUnauthorized, s, [])
  | Panic msg => Panic msg
  | Ok (sub, _, _) =>
      match parsed with
      | Err e => Ok (WriteError w e StatusBadRequest, s, [])
      | Panic msg => Panic msg
      | Ok form =>
          let downloadedBytes :=
            match strconv.ParseInt (formGet form "bytes") with
            | (n, None) => n
            | (_, Some _) => 0
            end in
          if downloadedBytes <? 0 then
            Ok (WriteError w (ErrorNew "negative download size") StatusBadRequest, s, [])
          else if downloadedBytes =? 0 then Ok (WriteSuccess w, s, [])
          else if String.eqb sl "" then
            Ok (WriteError w (ErrorNew "missing parameter 'skylink'") StatusBadRequest,
                s, [])
          else
            match DBSkylink s sl with
            | (Panic msg, _) => Panic msg
            | (Err e, s1) =>
                if ContainsErrInvalidSkylink e
                then Ok (WriteError w e StatusBadRequest, s1, [])
                else Ok (WriteError w e StatusInternalServerError, s1, [])
            | (Ok skylink, s1) =>
                match DBUserBySub s1 sub true with
                | (Panic msg, _) => Panic msg
                | (Err e, s2) => Ok (WriteError w e StatusInternalServerError, s2, [])
                | (Ok u, s2) =>
                    match DBDownloadCreate s2 u skylink downloadedBytes with
                    | (Panic msg, _) => Panic msg
                    | (Err e, s3) =>
                        Ok (WriteError w e StatusInternalServerError, s3, [])
                    | (Ok _, s3) =>
                        let queued :=
                          if Skylink.Size skylink =? 0 then [Skylink.ID skylink]
                          else [] in
                        Ok (WriteSuccess w, s3, queued)
                    end
                end
            end
      end
  end.

End MoreHandlers.

End api.


(** ** Package test: the naming helper of the testing kit *)

Module test.

(** The characters of the class that [CleanName] replaces, by byte:
    slash, backslash, dot, the white space of [\s] (tab, line feed, form
    feed, carriage return, space), double quote, dollar, star, angle
    brackets, colon, bar and question mark. *)
Definition unwantedBytes : list N :=
  [47; 92; 46; 9; 10; 12; 13; 32; 34; 36; 42; 60; 62; 58; 124; 63]%N.

Definition unwanted (c : ascii) : bool :=
  existsb (N.eqb (N_of_ascii c)) unwantedBytes.

(** [re.ReplaceAllString(s, "_")]: the class matches one byte at a time,
    and no byte of a multi-byte character is in it. *)
Fixpoint ReplaceAllString (s : string) : string :=
  match s with
  | EmptyString => EmptyString
  | String c rest =>
      String (if unwanted c then "_"%char else c) (ReplaceAllString rest)
  end.

(** [CleanName] *)
Definition CleanName (s : string) : string :=
  let cleanDBName := ReplaceAllString s in
  if (64 <? String.length cleanDBName)%nat then String.substring 0 64 cleanDBName
  else cleanDBName.

(** No byte of the string is in the class. *)
Fixpoint wanted (s : string) : bool :=
  match s with
  | EmptyString => true
  | String c rest => negb (unwanted c) && wanted rest
  end.

End test.

(** ** Package main: the database credentials *)

Module main.
Import database.

Definition envDBHost : string := "SKYNET_DB_HOST".
Definition envDBPort : string := "SKYNET_DB_PORT".
Definition envDBUser : string := "SKYNET_DB_USER".
Definition envDBPass : string := "SKYNET_DB_PASS".

(** [loadDBCredentials]; the environment maps the variables that are set
    to their values ([os.LookupEnv]). *)
Definition loadDBCredentials (env : gmap string string) : outcome DBCredentials.t :=
  match env !! envDBUser with
  | None => Err (ErrorNew ("missing env var " +:+ envDBUser))
  | Some user =>
      match env !! envDBPass with
      | None => Err (ErrorNew ("missing env var " +:+ envDBPass))
      | Some password =>
          match env !! envDBHost with
          | None => Err (ErrorNew ("missing env var " +:+ envDBHost))
          | Some host =>
              match env !! envDBPort with
              | None => Err (ErrorNew ("missing env var " +:+ envDBPort))
              | Some port =>
                  Ok {| DBCredentials.User := user;
                        DBCredentials.Password := password;
                        DBCredentials.Host := host;
                        DBCredentials.Port := port |}
              end
          end
      end
  end.

End main.

(** ** Concrete instances

    Small instances of the parameters and of the data, on which the
    statements below are exercised. *)

Module Examples.
Import bson mongo database.

#[local] Instance params : Params :=
  {| MaxNumAPIKeysPerUser := 2; ValidSkylinkHash := fun s => negb (String.eqb s "") |}.

Definition alice : User.t :=
  {| User.ID := 7%N; User.Email := "alice@example.com"; User.Sub := "sub-alice";
     User.PasswordHash := "hash(secret)"; User.Tier := 1; User.QuotaExceeded := false |}.

Definition bob : User.t :=
  {| User.ID := 8%N; User.Email := "bob@example.com"; User.Sub := "sub-bob";
     User.PasswordHash := "hash(hunter2)"; User.Tier := 1; User.QuotaExceeded := true |}.

Definition pak1 : PubAPIKeyRecord.t :=
  {| PubAPIKeyRecord.ID := 1%N; PubAPIKeyRecord.UserID := 7%N;
     PubAPIKeyRecord.Key := "key-one"; PubAPIKeyRecord.Skylinks := ["B"; "C"];
     PubAPIKeyRecord.CreatedAt := 1600000000 |}.

Definition pak2 : PubAPIKeyRecord.t :=
  {| PubAPIKeyRecord.ID := 2%N; PubAPIKeyRecord.UserID := 7%N;
     PubAPIKeyRecord.Key := "key-two"; PubAPIKeyRecord.Skylinks := [];
     PubAPIKeyRecord.CreatedAt := 1600000001 |}.

(** Alice holds two public API keys, as many as [params] allows. *)
Definition db2 : DB :=
  {| staticAPIKeys := [];
     staticPubAPIKeys := [PubAPIKeyRecord.marshal pak1; PubAPIKeyRecord.marshal pak2];
     generated := 2%N |}.

Import jwx jwt.

(** A stand-in signature scheme: the signature of any input is the key
    itself. *)
#[local] Instance crypto : Crypto :=
  {| publicOf := fun d => d;
     sign := fun _ m _ =>
       match m with
       | PrivateKey d => Some d
       | SymmetricKey k => Some k
       | PublicKey _ => None
       end;
     verify := fun _ m _ s =>
       match m with
       | PublicKey q => N.eqb q s
       | SymmetricKey k => N.eqb k s
       | PrivateKey _ => false
       end;
     formatTime := fun _ => "1970-01-01T00:00:00Z" |}.

Definition key1 : Key.t :=
  {| Key.KeyID := "kid-1"; Key.Algorithm := "RS256"; Key.material := PrivateKey 42 |}.

Definition fsOneKey : gmap string FileContents :=
  {[ AccountsJWKSFile Standard := JWKSDocument [key1] ]}.

Definition fsNoKeys : gmap string FileContents :=
  {[ AccountsJWKSFile Standard := JWKSDocument [] ]}.

Definition loaded : Globals := snd (LoadAccountsKeySet Standard fsOneKey initial).

(** Claims whose [session] is a string, and claims whose session has no
    [email] among its traits. *)
Definition tokenBadSession : Token :=
  {| subject := Some "sub-alice"; issuer := None; expiration := None;
     issuedAt := None;
     privateClaims := {[ "session" := AString "active" ]} |}.

Definition tokenNoEmail : Token :=
  {| subject := Some "sub-alice"; issuer := None; expiration := None;
     issuedAt := None;
     privateClaims :=
       {[ "session" :=
            AMap (Some {[ "active" := ABool true;
                          "identity" := AMap (Some {[ "traits" := AMap (Some ∅) ]}) ]}) ]} |}.

Definition tokenGood : Token :=
  {| subject := Some "sub-alice"; issuer := None; expiration := None;
     issuedAt := None;
     privateClaims :=
       {[ "session" :=
            sessionJSON {| Active := true;
                           Identity := {| Traits := {| Email := "alice@example.com" |} |} |} ]} |}.

Import api.

(** A user store that records the saved users; every user has 101 uploads
    of 5 bytes in all, and every tier allows 100 uploads. *)
#[local] Instance deps : Deps (list User.t) :=
  {| UserStats := fun _ _ =>
       Ok {| UserStats.NumUploads := 101; UserStats.TotalUploadsSize := 5 |};
     UserSave := fun s u => (Ok tt, u :: s);
     UserByEmail := fun _ email _ =>
       if String.eqb email "alice@example.com" then Ok alice
       else Err (ErrorNew "user not found");
     UserLimits := fun _ =>
       {| TierLimits.TierName := "free"; TierLimits.UploadBandwidth := 0;
          TierLimits.DownloadBandwidth := 0; TierLimits.MaxUploadSize := 0;
          TierLimits.MaxNumberUploads := 100; TierLimits.RegistryDelay := 0;
          TierLimits.Storage := 1000 |};
     hashCompare := fun pw h =>
       if String.eqb ("hash(" +:+ pw +:+ ")") h then Ok tt
       else Err (ErrorNew "mismatch");
     tokenFromRequest := fun req =>
       match Request.Header req !! "Authorization" with
       | Some (v :: _) => Ok v
       | _ => Err (ErrorNew "no token")
       end;
     writeCookie := fun w tok exp => (Ok tt, w ++ [WCookie tok exp]);
     TokenForUser := fun email sub =>
       if String.eqb email "" || String.eqb sub "" then Err (ErrorNew "empty")
       else Ok (tokenGood, "token-of-" +:+ sub);
     ValidateToken := fun t =>
       if String.eqb t "token-of-sub-alice" then Ok tokenGood
       else Err (ErrJWT "invalid JWT") |}.

Definition loginForm (email password : string) : gmap string (list string) :=
  {[ "email" := [email]; "password" := [password] ]}.

Definition reqCredentials : Request.t :=
  {| Request.PostForm := loginForm "alice@example.com" "secret";
     Request.Header := ∅ |}.

Definition reqCredentialsAndToken : Request.t :=
  {| Request.PostForm := loginForm "alice@example.com" "secret";
     Request.Header := {[ "Authorization" := ["token-of-sub-bob"] ]} |}.

Definition reqTokenOnly : Request.t :=
  {| Request.PostForm := loginForm "alice@example.com" "";
     Request.Header := {[ "Authorization" := ["token-of-sub-alice"] ]} |}.

End Examples.

(** * Properties *)

(** ** The document store *)

Module MongoFacts.
Import bson mongo.

Lemma scalar_eqb_string (s : string) (w : Value) :
  scalar_eqb (VString s) w = true <-> w = VString s.
Proof.
  destruct w; simpl; try (split; [discriminate | intros [=]]).
  rewrite String.eqb_eq. split; [intros -> | intros [= ->]]; reflexivity.
Qed.

Lemma scalar_eqb_oid (id : primitive.ObjectID) (w : Value) :
  scalar_eqb (VObjectID id) w = true <-> w = VObjectID id.
Proof.
  destruct w; simpl; try (split; [discriminate | intros [=]]).
  rewrite N.eqb_eq. split; [intros -> | intros [= ->]]; reflexivity.
Qed.

Lemma field_matches_string (d : M) (k s : string) :
  field_matches d k (VString s) = true <-> d !! k = Some (VString s).
Proof.
  unfold field_matches. destruct (d !! k) as [w|].
  - rewrite scalar_eqb_string. split; [intros -> | intros [= ->]]; reflexivity.
  - split; discriminate.
Qed.

Lemma field_matches_oid (d : M) (k : string) (id : primitive.ObjectID) :
  field_matches d k (VObjectID id) = true <-> d !! k = Some (VObjectID id).
Proof.
  unfold field_matches. destruct (d !! k) as [w|].
  - rewrite scalar_eqb_oid. split; [intros -> | intros [= ->]]; reflexivity.
  - split; discriminate.
Qed.

Lemma matches_singleton (k : string) (v : Value) (d : M) :
  matches {[ k := v ]} d = field_matches d k v.
Proof.
  unfold matches. destruct (field_matches d k v) eqn:H.
  - apply bool_decide_eq_true. apply map_Forall_singleton. exact H.
  - apply bool_decide_eq_false. rewrite map_Forall_singleton. congruence.
Qed.

Lemma matches_pair (k1 k2 : string) (v1 v2 : Value) (d : M) :
  k1 <> k2 ->
  matches {[ k1 := v1; k2 := v2 ]} d = field_matches d k1 v1 && field_matches d k2 v2.
Proof.
  intros Hne. unfold matches.
  destruct (field_matches d k1 v1) eqn:H1, (field_matches d k2 v2) eqn:H2; simpl.
  - apply bool_decide_eq_true. apply map_Forall_insert_2; [exact H1|].
    apply map_Forall_singleton. exact H2.
  - apply bool_decide_eq_false. intros HF.
    specialize (HF k2 v2). rewrite lookup_insert_ne, lookup_singleton_eq in HF by exact Hne.
    specialize (HF eq_refl). simpl in HF. congruence.
  - apply bool_decide_eq_false. intros HF.
    specialize (HF k1 v1). rewrite lookup_insert_eq in HF.
    specialize (HF eq_refl). simpl in HF. congruence.
  - apply bool_decide_eq_false. intros HF.
    specialize (HF k1 v1). rewrite lookup_insert_eq in HF.
    specialize (HF eq_refl). simpl in HF. congruence.
Qed.

Lemma CountDocuments_zero (c : Collection) (filter : M) :
  CountDocuments c filter = Ok 0 <-> unmatched filter c.
Proof.
  unfold CountDocuments, unmatched. induction c as [|d ds IH]; simpl.
  - split; [constructor | reflexivity].
  - destruct (matches filter d) eqn:Hm; simpl.
    + split.
      * intros H. exfalso. simplify_eq/=; lia.
      * intros H. inversion H; subst. congruence.
    + rewrite IH. split.
      * intros H. constructor; assumption.
      * intros H. inversion H; subst. assumption.
Qed.

Lemma updateFirst_unmatched (filter update : M) (c : Collection) :
  unmatched filter c ->
  updateFirst filter update c = Ok ({| MatchedCount := 0 |}, c).
Proof.
  induction 1 as [|d ds Hd _ IH]; simpl; [reflexivity|].
  rewrite Hd, IH. reflexivity.
Qed.

Lemma deleteFirst_unmatched (filter : M) (c : Collection) :
  unmatched filter c -> deleteFirst filter c = (0, c).
Proof.
  induction 1 as [|d ds Hd _ IH]; simpl; [reflexivity|].
  rewrite Hd, IH. reflexivity.
Qed.

(** [deleteFirst] removes the first selected document and nothing else. *)
Lemma deleteFirst_spec (filter : M) (c : Collection) :
  (unmatched filter c /\ deleteFirst filter c = (0, c)) \/
  (exists l1 d l2,
      c = l1 ++ d :: l2 /\ unmatched filter l1 /\ matches filter d = true /\
      deleteFirst filter c = (1, l1 ++ l2)).
Proof.
  induction c as [|d ds IH]; simpl.
  - left. split; [constructor | reflexivity].
  - destruct (matches filter d) eqn:Hm.
    + right. exists [], d, ds. repeat split; [constructor | exact Hm].
    + destruct IH as [[Hu ->] | (l1 & d' & l2 & -> & Hu & Hd & ->)].
      * left. split; [constructor; assumption | reflexivity].
      * right. exists (d :: l1), d', l2.
        repeat split; [constructor; assumption | exact Hd].
Qed.

(** An error of [updateFirst] is an error of applying the update to some
    document. *)
Lemma updateFirst_error (P : error -> Prop) (filter update : M) (c : Collection)
    (e : error) :
  (forall d e', applyUpdate update d = Err e' -> P e') ->
  updateFirst filter update c = Err e -> P e.
Proof.
  intros Happly. induction c as [|d ds IH]; simpl; [discriminate|].
  destruct (matches filter d).
  - destruct (applyUpdate update d) as [d'|e'|msg] eqn:Hd; simpl; try discriminate.
    intros [= <-]. eapply Happly, Hd.
  - destruct (updateFirst filter update ds) as [[r ds']|e'|msg]; simpl;
      try discriminate.
    intros [= <-]. apply IH. reflexivity.
Qed.

Lemma applyUpdate_push_error (field : string) (spec : Value) (d : M) (e : error) :
  applyUpdate {[ "$push" := VDocument {[ field := spec ]} ]} d = Err e ->
  exists msg, e = ErrServer msg.
Proof.
  unfold applyUpdate. rewrite map_fold_singleton. simpl.
  unfold applyOperator. simpl. unfold applyFields.
  rewrite map_fold_singleton. simpl.
  unfold applyPush, arrayOf.
  repeat case_match; simpl; intros; simplify_eq; eauto.
Qed.

End MongoFacts.

(** ** Package database *)

Module DatabaseProofs.
Import bson mongo database MongoFacts.

Lemma marshal_key (r : PubAPIKeyRecord.t) :
  PubAPIKeyRecord.marshal r !! "key" = Some (VString (PubAPIKeyRecord.Key r)).
Proof.
  unfold PubAPIKeyRecord.marshal.
  destruct (primitive.IsZero (PubAPIKeyRecord.ID r)); reflexivity.
Qed.

Lemma marshal_user_id (r : PubAPIKeyRecord.t) :
  PubAPIKeyRecord.marshal r !! "user_id" = Some (VObjectID (PubAPIKeyRecord.UserID r)).
Proof.
  unfold PubAPIKeyRecord.marshal.
  destruct (primitive.IsZero (PubAPIKeyRecord.ID r)); reflexivity.
Qed.

Lemma marshal_skylinks (r : PubAPIKeyRecord.t) :
  PubAPIKeyRecord.marshal r !! "skylinks" = Some (strings (PubAPIKeyRecord.Skylinks r)).
Proof.
  unfold PubAPIKeyRecord.marshal.
  destruct (primitive.IsZero (PubAPIKeyRecord.ID r)); reflexivity.
Qed.

Lemma marshal_set_skylinks (r : PubAPIKeyRecord.t) (l : list string) :
  <["skylinks" := strings l]> (PubAPIKeyRecord.marshal r)
  = PubAPIKeyRecord.marshal (PubAPIKeyRecord.withSkylinks r l).
Proof.
  unfold PubAPIKeyRecord.marshal, PubAPIKeyRecord.withSkylinks. simpl.
  destruct (primitive.IsZero (PubAPIKeyRecord.ID r)); apply map_eq; intros k;
    repeat (rewrite ?lookup_insert; case_decide; subst; try reflexivity; try congruence).
Qed.


Lemma setPubAPIKeys_same (db : DB) : setPubAPIKeys db (staticPubAPIKeys db) = db.
Proof. destruct db; reflexivity. Qed.

Lemma setAPIKeys_same (db : DB) : setAPIKeys db (staticAPIKeys db) = db.
Proof. destruct db; reflexivity. Qed.

Lemma strings_app (l1 l2 : list string) :
  VArray ((VString <$> l1) ++ (VString <$> l2)) = strings (l1 ++ l2).
Proof. unfold strings. rewrite fmap_app. reflexivity. Qed.

(** The [$push]/[$each] update of [PubAPIKeyPatch] appends to the record's
    skylinks. *)
Lemma push_each_marshal (r : PubAPIKeyRecord.t) (add : list string) :
  applyUpdate
    {[ "$push" := VDocument {[ "skylinks" := VDocument {[ "$each" := strings add ]} ]} ]}
    (PubAPIKeyRecord.marshal r)
  = Ok (PubAPIKeyRecord.marshal
          (PubAPIKeyRecord.withSkylinks r (PubAPIKeyRecord.Skylinks r ++ add))).
Proof.
  unfold applyUpdate. rewrite map_fold_singleton. simpl.
  unfold applyOperator. simpl. unfold applyFields.
  rewrite map_fold_singleton. simpl.
  unfold applyPush, arrayOf. rewrite marshal_skylinks. simpl.
  rewrite lookup_singleton_eq. unfold strings at 1. 
  rewrite strings_app. rewrite marshal_set_skylinks. reflexivity.
Qed.

Lemma ensureDollarKey_push (spec : Value) :
  ensureDollarKey {[ "$push" := spec ]} = Ok tt.
Proof.
  unfold ensureDollarKey.
  rewrite bool_decide_eq_false_2 by apply insert_non_empty.
  rewrite bool_decide_eq_true_2; [reflexivity|].
  apply map_Forall_singleton. reflexivity.
Qed.

Lemma ensureDollarKey_plain (k : string) (spec : Value) :
  hasDollarPrefix k = false ->
  ensureDollarKey {[ k := spec ]}
  = Err (ErrDriver "update document must contain key beginning with '$'").
Proof.
  intros Hk. unfold ensureDollarKey.
  rewrite bool_decide_eq_false_2 by apply insert_non_empty.
  rewrite bool_decide_eq_false_2; [reflexivity|].
  rewrite map_Forall_singleton. congruence.
Qed.

Section WithParams.
Context {params : Params}.

Lemma validateSkylinks_Forall (skylinks : list string) :
  Forall (fun s => ValidSkylinkHash s = true) skylinks ->
  validateSkylinks skylinks = Ok tt.
Proof.
  induction 1 as [|s rest Hs _ IH]; simpl; [reflexivity|].
  rewrite Hs. simpl. exact IH.
Qed.

Lemma validateSkylinks_error (skylinks : list string) (e : error) :
  validateSkylinks skylinks = Err e -> e = ErrInvalidSkylink.
Proof.
  induction skylinks as [|s l IH]; simpl; [discriminate|].
  destruct (ValidSkylinkHash s); simpl; [exact IH | congruence].
Qed.

Lemma validateSkylinks_no_panic (skylinks : list string) (msg : string) :
  validateSkylinks skylinks <> Panic msg.
Proof.
  induction skylinks as [|s l IH]; simpl; [discriminate|].
  destruct (ValidSkylinkHash s); simpl; [exact IH | discriminate].
Qed.

(** The cap does fire, one key late: an owner holding more than
    [MaxNumAPIKeysPerUser] public API keys is refused and nothing is
    stored. *)
Lemma PubAPIKeyCreate_over_limit_fails
    (db : DB) (user : User.t) (skylinks : list string) (now : Z) (rnd : string)
    (n : Z) :
  primitive.IsZero (User.ID user) = false ->
  CountDocuments (staticPubAPIKeys db) {[ "user_id" := VObjectID (User.ID user) ]}
    = Ok n ->
  n > MaxNumAPIKeysPerUser ->
  PubAPIKeyCreate db user skylinks now rnd = (Err ErrMaxNumAPIKeysExceeded, db).
Proof.
  intros Hu Hn Hgt. unfold PubAPIKeyCreate. rewrite Hu, Hn.
  destruct (Z.gtb_spec n MaxNumAPIKeysPerUser); [reflexivity | lia].
Qed.

(** [PubAPIKeyPatch] has no path that returns [ErrNoDocuments]. *)
Lemma PubAPIKeyPatch_never_NotFound
    (db : DB) (user : User.t) (pak : PubAPIKey) (add remove : list string) :
  fst (PubAPIKeyPatch db user pak add remove) <> Err ErrNoDocuments.
Proof.
  unfold PubAPIKeyPatch.
  destruct (primitive.IsZero (User.ID user)); [discriminate|].
  destruct (validateSkylinks (add ++ remove)) as [[]|e|msg] eqn:Hv;
    [| apply validateSkylinks_error in Hv; subst; discriminate | discriminate].
  assert (Hpull : forall (c : Collection) (spec : Value),
             UpdateOne c {[ "key" := VString pak ]} {[ "pull" := spec ]}
             = Err (ErrDriver "update document must contain key beginning with '$'")).
  { intros c spec. unfold UpdateOne.
    rewrite ensureDollarKey_plain by reflexivity. reflexivity. }
  destruct (0 <? Z.of_nat (length add)).
  - destruct (UpdateOne (staticPubAPIKeys db) _ _) as [[r c]|e|msg] eqn:Hu1.
    + destruct (0 <? Z.of_nat (length remove)); [|discriminate].
      rewrite Hpull. discriminate.
    + simpl. intros [= ->]. unfold UpdateOne in Hu1.
      rewrite ensureDollarKey_push in Hu1. simpl in Hu1.
      apply (updateFirst_error (fun e => exists msg, e = ErrServer msg)) in Hu1.
      * destruct Hu1 as [msg [=]].
      * intros d e'. apply applyUpdate_push_error.
    + discriminate.
  - destruct (0 <? Z.of_nat (length remove)); [|discriminate].
    rewrite Hpull. discriminate.
Qed.

(** C1 (as the code behaves): for an owner who already holds exactly
    [MaxNumAPIKeysPerUser] public API keys, [PubAPIKeyCreate] does not fail
    with [ErrMaxNumAPIKeysExceeded]: it succeeds and stores one more
    record, and it stores it in the collection of private API keys. *)
Theorem PubAPIKeyCreate_at_limit_succeeds
    (db : DB) (user : User.t) (skylinks : list string) (now : Z) (rnd : string) :
  primitive.IsZero (User.ID user) = false ->
  CountDocuments (staticPubAPIKeys db) {[ "user_id" := VObjectID (User.ID user) ]}
    = Ok MaxNumAPIKeysPerUser ->
  Forall (fun s => ValidSkylinkHash s = true) skylinks ->
  exists pakRec db',
    PubAPIKeyCreate db user skylinks now rnd = (Ok pakRec, db') /\
    PubAPIKeyRecord.UserID pakRec = User.ID user /\
    PubAPIKeyRecord.Skylinks pakRec = skylinks /\
    staticAPIKeys db' = staticAPIKeys db ++ [PubAPIKeyRecord.marshal pakRec] /\
    staticPubAPIKeys db' = staticPubAPIKeys db.
Proof.
  intros Hu Hn Hv. unfold PubAPIKeyCreate.
  rewrite Hu, Hn, Z.gtb_ltb, Z.ltb_irrefl.
  rewrite (validateSkylinks_Forall _ Hv). simpl.
  eexists _, _. split; [reflexivity|].
  repeat split. simpl.
  unfold PubAPIKeyRecord.marshal at 2. simpl.
  unfold primitive.IsZero.
  destruct (N.eqb_spec (N.succ (generated db)) 0) as [E|_]; [lia|].
  reflexivity.
Qed.

(** C2 (as the code behaves): on a record holding [[B; C]],
    [PubAPIKeyPatch] with [add = [A]] and [remove = [B]] appends [A], then
    fails in the removal step, whose update document has the key ["pull"];
    the stored list is [[B; C; A]], which is not [[A; C]] in any order. *)
Theorem PubAPIKeyPatch_add_A_remove_B
    (db : DB) (user : User.t) (r : PubAPIKeyRecord.t) (rest : Collection)
    (A B C : string) :
  primitive.IsZero (User.ID user) = false ->
  ValidSkylinkHash A = true ->
  ValidSkylinkHash B = true ->
  PubAPIKeyRecord.Skylinks r = [B; C] ->
  staticPubAPIKeys db = PubAPIKeyRecord.marshal r :: rest ->
  exists e db',
    PubAPIKeyPatch db user (PubAPIKeyRecord.Key r) [A] [B] = (Err e, db') /\
    staticPubAPIKeys db'
      = PubAPIKeyRecord.marshal (PubAPIKeyRecord.withSkylinks r [B; C; A]) :: rest /\
    ~ Permutation [B; C; A] [A; C].
Proof.
  intros Hu HA HB Hs Hc. unfold PubAPIKeyPatch.
  rewrite Hu. simpl. rewrite HA, HB. simpl.
  unfold UpdateOne. rewrite ensureDollarKey_push. simpl. rewrite Hc. simpl.
  rewrite matches_singleton.
  assert (Hk : field_matches (PubAPIKeyRecord.marshal r) "key"
                 (VString (PubAPIKeyRecord.Key r)) = true).
  { apply field_matches_string, marshal_key. }
  rewrite Hk, push_each_marshal, Hs. simpl.
  rewrite ensureDollarKey_plain by reflexivity. simpl.
  eexists _, _. split; [reflexivity|]. split; [reflexivity|].
  intros HP. apply Permutation_length in HP. discriminate.
Qed.

(** C4 (as the code behaves): [PubAPIKeyPatch] selects the record by key
    alone, so it changes a record of another owner, and when no record is
    selected it returns a nil error; neither [PubAPIKeyUpdate] nor
    [PubAPIKeyPatch], which discard the update result, ever returns
    [ErrNoDocuments]. *)
Theorem PubAPIKeyPatch_ignores_owner_and_misses
    (db : DB) (user : User.t) (pak : PubAPIKey) (add : list string) :
  primitive.IsZero (User.ID user) = false ->
  add <> [] ->
  Forall (fun s => ValidSkylinkHash s = true) add ->
  (unmatched {[ "key" := VString pak ]} (staticPubAPIKeys db) ->
   PubAPIKeyPatch db user pak add [] = (Ok tt, db)) /\
  (forall (r : PubAPIKeyRecord.t) (rest : Collection),
      PubAPIKeyRecord.UserID r <> User.ID user ->
      PubAPIKeyRecord.Key r = pak ->
      staticPubAPIKeys db = PubAPIKeyRecord.marshal r :: rest ->
      PubAPIKeyPatch db user pak add []
      = (Ok tt,
         setPubAPIKeys db
           (PubAPIKeyRecord.marshal
              (PubAPIKeyRecord.withSkylinks r (PubAPIKeyRecord.Skylinks r ++ add))
            :: rest))) /\
  (forall skylinks : list string,
      fst (PubAPIKeyUpdate db user pak skylinks) <> Err ErrNoDocuments) /\
  (forall add' remove' : list string,
      fst (PubAPIKeyPatch db user pak add' remove') <> Err ErrNoDocuments).
Proof.
  intros Hu Hadd Hv.
  assert (Hlen : (0 <? Z.of_nat (length add)) = true).
  { destruct add; [congruence | reflexivity]. }
  assert (Hval : validateSkylinks (add ++ []) = Ok tt).
  { rewrite app_nil_r. apply validateSkylinks_Forall, Hv. }
  split; [|split; [|split]]; [| | | intros; apply PubAPIKeyPatch_never_NotFound].
  - intros Hun. unfold PubAPIKeyPatch. rewrite Hu, Hval, Hlen.
    unfold UpdateOne. rewrite ensureDollarKey_push. simpl.
    rewrite (updateFirst_unmatched _ _ _ Hun). simpl.
    rewrite setPubAPIKeys_same. reflexivity.
  - intros r rest _ Hk Hc. unfold PubAPIKeyPatch. rewrite Hu, Hval, Hlen.
    unfold UpdateOne. rewrite ensureDollarKey_push. simpl. rewrite Hc. simpl.
    rewrite matches_singleton.
    assert (Hm : field_matches (PubAPIKeyRecord.marshal r) "key" (VString pak) = true).
    { apply field_matches_string. rewrite <- Hk. apply marshal_key. }
    rewrite Hm, push_each_marshal. reflexivity.
  - intros skylinks. unfold PubAPIKeyUpdate. rewrite Hu.
    destruct (validateSkylinks skylinks) as [[]|e|msg] eqn:Hvs; simpl.
    + unfold UpdateOne. rewrite ensureDollarKey_plain by reflexivity. simpl.
      discriminate.
    + apply validateSkylinks_error in Hvs. subst. discriminate.
    + discriminate.
Qed.

(** [PubAPIKeyDelete] reports a call that deleted nothing as
    [ErrNoDocuments]. *)
Lemma PubAPIKeyDelete_zero_affected
    (db : DB) (user : User.t) (pakID : string) (id : primitive.ObjectID) :
  primitive.IsZero (User.ID user) = false ->
  primitive.ObjectIDFromHex pakID = Ok id ->
  unmatched {[ "_id" := VObjectID id; "user_id" := VObjectID (User.ID user) ]}
    (staticPubAPIKeys db) ->
  PubAPIKeyDelete db user pakID = (Err ErrNoDocuments, db).
Proof.
  intros Hu Hid Hun. unfold PubAPIKeyDelete, DeleteOne.
  rewrite Hu, Hid, (deleteFirst_unmatched _ _ Hun). simpl.
  rewrite setPubAPIKeys_same. reflexivity.
Qed.

(** [PubAPIKeyDelete] removes one record, and that record has both the
    given id and the given owner. *)
Lemma PubAPIKeyDelete_removes_owned
    (db db' : DB) (user : User.t) (pakID : string) :
  PubAPIKeyDelete db user pakID = (Ok tt, db') ->
  exists id l1 d l2,
    primitive.ObjectIDFromHex pakID = Ok id /\
    staticPubAPIKeys db = l1 ++ d :: l2 /\
    staticPubAPIKeys db' = l1 ++ l2 /\
    d !! "_id" = Some (VObjectID id) /\
    d !! "user_id" = Some (VObjectID (User.ID user)).
Proof.
  unfold PubAPIKeyDelete, DeleteOne.
  destruct (primitive.IsZero (User.ID user)); [discriminate|].
  destruct (primitive.ObjectIDFromHex pakID) as [id|e|msg]; try discriminate.
  destruct (deleteFirst_spec
              {[ "_id" := VObjectID id; "user_id" := VObjectID (User.ID user) ]}
              (staticPubAPIKeys db))
    as [[_ ->] | (l1 & d & l2 & Hc & _ & Hm & ->)]; simpl; [discriminate|].
  intros [= <-]. exists id, l1, d, l2.
  rewrite matches_pair in Hm by discriminate.
  apply andb_true_iff in Hm as [H1 H2].
  apply field_matches_oid in H1, H2. auto.
Qed.

End WithParams.

(** With a valid user, [APIKeyDelete] returns a nil error whatever the
    collection holds. *)
Lemma APIKeyDelete_always_nil (db : DB) (user : User.t) (ak : string) :
  primitive.IsZero (User.ID user) = false ->
  fst (APIKeyDelete db user ak) = Ok tt.
Proof.
  intros Hu. unfold APIKeyDelete, DeleteOne. rewrite Hu.
  destruct (deleteFirst _ (staticAPIKeys db)). reflexivity.
Qed.

(** C7 (as the code behaves): [APIKeyDelete] discards the delete result;
    when no record has both the key and the owner, nothing is deleted and
    the call returns a nil error, not [ErrNoDocuments]. *)
Theorem APIKeyDelete_zero_affected_returns_nil
    (db : DB) (user : User.t) (ak : string) :
  primitive.IsZero (User.ID user) = false ->
  unmatched {[ "key" := VString ak; "user_id" := VObjectID (User.ID user) ]}
    (staticAPIKeys db) ->
  APIKeyDelete db user ak = (Ok tt, db).
Proof.
  intros Hu Hun. unfold APIKeyDelete, DeleteOne.
  rewrite Hu, (deleteFirst_unmatched _ _ Hun). simpl.
  rewrite setAPIKeys_same. reflexivity.
Qed.

(** With a cap of two, Alice, who owns two public API keys, creates a third. *)
Lemma PubAPIKeyCreate_at_limit_succeeds_witness :
  CountDocuments (staticPubAPIKeys Examples.db2)
    {[ "user_id" := VObjectID (User.ID Examples.alice) ]}
  = Ok (MaxNumAPIKeysPerUser (Params := Examples.params)) /\
  exists pakRec db',
    PubAPIKeyCreate (params := Examples.params) Examples.db2 Examples.alice
      ["D"] 1700000000 "key-three" = (Ok pakRec, db') /\
    length (staticAPIKeys db') = 1%nat /\
    length (staticPubAPIKeys db') = 2%nat.
Proof.
  split; [reflexivity|].
  destruct (PubAPIKeyCreate_at_limit_succeeds (params := Examples.params)
              Examples.db2 Examples.alice ["D"] 1700000000 "key-three")
    as (pakRec & db' & Hc & _ & _ & Ha & Hp).
  - reflexivity.
  - reflexivity.
  - repeat constructor.
  - exists pakRec, db'. split; [exact Hc|].
    rewrite Ha, Hp. split; reflexivity.
Defined.

(** Alice patches her first key, which holds B and C. *)
Lemma PubAPIKeyPatch_add_A_remove_B_witness :
  exists e db',
    PubAPIKeyPatch (params := Examples.params) Examples.db2 Examples.alice
      "key-one" ["A"] ["B"] = (Err e, db') /\
    staticPubAPIKeys db'
    = [PubAPIKeyRecord.marshal (PubAPIKeyRecord.withSkylinks Examples.pak1 ["B"; "C"; "A"]);
       PubAPIKeyRecord.marshal Examples.pak2].
Proof.
  destruct (PubAPIKeyPatch_add_A_remove_B (params := Examples.params)
              Examples.db2 Examples.alice Examples.pak1
              [PubAPIKeyRecord.marshal Examples.pak2] "A" "B" "C")
    as (e & db' & Hp & Hs & _).
  - reflexivity.
  - reflexivity.
  - reflexivity.
  - reflexivity.
  - reflexivity.
  - exists e, db'. split; [exact Hp | exact Hs].
Defined.

(** Bob patches Alice's key, and a key that does not exist. *)
Lemma PubAPIKeyPatch_ignores_owner_and_misses_witness :
  PubAPIKeyPatch (params := Examples.params) Examples.db2 Examples.bob
    "key-one" ["A"] []
  = (Ok tt,
     setPubAPIKeys Examples.db2
       [PubAPIKeyRecord.marshal (PubAPIKeyRecord.withSkylinks Examples.pak1 ["B"; "C"; "A"]);
        PubAPIKeyRecord.marshal Examples.pak2]) /\
  PubAPIKeyPatch (params := Examples.params) Examples.db2 Examples.bob
    "no-such-key" ["A"] []
  = (Ok tt, Examples.db2).
Proof.
  split.
  - destruct (PubAPIKeyPatch_ignores_owner_and_misses (params := Examples.params)
                Examples.db2 Examples.bob "key-one" ["A"])
      as (_ & Hforeign & _ & _).
    + reflexivity.
    + discriminate.
    + repeat constructor.
    + apply (Hforeign Examples.pak1 [PubAPIKeyRecord.marshal Examples.pak2]).
      * discriminate.
      * reflexivity.
      * reflexivity.
  - destruct (PubAPIKeyPatch_ignores_owner_and_misses (params := Examples.params)
                Examples.db2 Examples.bob "no-such-key" ["A"])
      as (Hmiss & _ & _ & _).
    + reflexivity.
    + discriminate.
    + repeat constructor.
    + apply Hmiss. repeat constructor.
Defined.

(** Alice deletes a private API key that does not exist. *)
Lemma APIKeyDelete_zero_affected_returns_nil_witness :
  APIKeyDelete Examples.db2 Examples.alice "no-such-key" = (Ok tt, Examples.db2).
Proof.
  apply APIKeyDelete_zero_affected_returns_nil.
  - reflexivity.
  - constructor.
Defined.

End DatabaseProofs.

(** ** Package jwt *)

Module JwtProofs.
Import jwx jwt.

Lemma eqb_empty_false (s : string) : s <> "" -> String.eqb s "" = false.
Proof. intros H. apply String.eqb_neq. exact H. Qed.

Section WithCrypto.
Context {crypto : Crypto}.

Lemma PublicKeyOf_fields (k pk : Key.t) :
  PublicKeyOf k = Ok pk ->
  Key.KeyID pk = Key.KeyID k /\ Key.Algorithm pk = Key.Algorithm k.
Proof.
  unfold PublicKeyOf. destruct (Key.material k); intros [= <-]; auto.
Qed.

Lemma PublicKeyOf_total (k : Key.t) : exists pk, PublicKeyOf k = Ok pk.
Proof. unfold PublicKeyOf. destruct (Key.material k); eauto. Qed.

Lemma PublicSetOf_total (set : list Key.t) :
  exists pub, PublicSetOf set = Ok pub /\ length pub = length set.
Proof.
  induction set as [|k rest [prest [IH Hlen]]]; simpl.
  - exists []. auto.
  - destruct (PublicKeyOf_total k) as [pk Hpk]. rewrite Hpk, IH. simpl.
    exists (pk :: prest). simpl. auto.
Qed.

Lemma PublicSetOf_head (k : Key.t) (rest pub : list Key.t) :
  PublicSetOf (k :: rest) = Ok pub ->
  exists pk prest, pub = pk :: prest /\ PublicKeyOf k = Ok pk.
Proof.
  simpl. destruct (PublicKeyOf k) as [pk|e|msg]; simpl; try discriminate.
  destruct (PublicSetOf rest) as [prest|e|msg]; simpl; try discriminate.
  intros [= <-]. eauto.
Qed.

Lemma LookupKeyID_head (pk : Key.t) (prest : list Key.t) :
  LookupKeyID (pk :: prest) (Key.KeyID pk) = Some pk.
Proof. unfold LookupKeyID. simpl. rewrite String.eqb_refl. reflexivity. Qed.

(** What a successful load leaves in the package variables. *)
Lemma LoadAccountsKeySet_ok (r : Release) (fs : gmap string FileContents)
    (g0 g : Globals) :
  LoadAccountsKeySet r fs g0 = (Ok tt, g) ->
  exists set pub,
    PublicSetOf set = Ok pub /\ g = setKeySets g0 (Some set) (Some pub).
Proof.
  unfold LoadAccountsKeySet.
  destruct (ReadFile fs (AccountsJWKSFile r)) as [b|e|msg]; try discriminate.
  destruct (Unmarshal b) as [set|e|msg]; try discriminate.
  destruct (PublicSetOf set) as [pub|e|msg] eqn:Hpub; try discriminate.
  intros [= <-]. eauto.
Qed.

Lemma signatureAlgoAndKey_ok (g : Globals) (sigAlgo : string) (key : Key.t) :
  signatureAlgoAndKey g = Ok (sigAlgo, key) ->
  exists rest, AccountsJWKS g = Some (key :: rest).
Proof.
  unfold signatureAlgoAndKey.
  destruct (AccountsJWKS g) as [[|k rest]|]; simpl; try discriminate.
  destruct (String.eqb _ ""); [discriminate|].
  intros [= _ <-]. eauto.
Qed.

(** The session block that [tokenForUser] stores survives two JSON
    encodings as the same nested maps. *)
Lemma session_claims_encoded (f : Z -> string) (s : tokenSession) :
  jsonValue f <$> (jsonValue f <$> ({[ "session" := ASession s ]} : gmap string any))
  = {[ "session" := sessionJSON s ]}.
Proof.
  rewrite !map_fmap_singleton. f_equal.
Qed.


Lemma TokenFields_wellformed (t : Token) (sub email : string)
    (session identity traits : gmap string any) :
  subject t = Some sub ->
  sub <> "" ->
  privateClaims t !! "session" = Some (AMap (Some session)) ->
  session !! "identity" = Some (AMap (Some identity)) ->
  identity !! "traits" = Some (AMap (Some traits)) ->
  traits !! "email" = Some (AString email) ->
  TokenFields t = Ok (sub, email, t).
Proof.
  intros Hsub Hne Hs Hi Ht He. unfold TokenFields, Get. simpl.
  rewrite Hsub. simpl. rewrite (eqb_empty_false _ Hne), Hs. simpl.
  rewrite Hi. simpl. rewrite Ht. simpl. rewrite He. reflexivity.
Qed.



Lemma ParseWithKeySet_ok (t : Compact) (g : Globals) (claims : Token) :
  ParseWithKeySet t (AccountsPublicJWKS g) = Ok claims <-> verified g t claims.
Proof.
  unfold verified, ParseWithKeySet. split.
  - destruct t as [raw|h c s]; [discriminate|].
    destruct (AccountsPublicJWKS g) as [keys|]; [|discriminate].
    destruct (String.eqb (kid h) "") eqn:Hkid; [discriminate|].
    destruct (LookupKeyID keys (kid h)) as [k|] eqn:Hk; [|discriminate].
    destruct (verify _ _ _ _) eqn:Hv; [|discriminate].
    intros [= <-]. exists h, s, keys, k.
    apply String.eqb_neq in Hkid. auto.
  - intros (h & s & keys & k & -> & -> & Hkid & Hk & Hv).
    rewrite (eqb_empty_false _ Hkid), Hk, Hv. reflexivity.
Qed.

Lemma ParseWithKeySet_error (t : Compact) (set : option (list Key.t)) :
  (exists claims, ParseWithKeySet t set = Ok claims) \/
  (exists msg, ParseWithKeySet t set = Err (ErrJWT msg)).
Proof.
  unfold ParseWithKeySet. destruct t as [raw|h c s]; [eauto|].
  destruct set as [keys|]; [|eauto].
  destruct (String.eqb (kid h) ""); [eauto|].
  destruct (LookupKeyID keys (kid h)) as [k|]; [|eauto].
  destruct (verify _ _ _ _); eauto.
Qed.

(** C6: [ValidateToken] fails with [ErrTokenExpired] exactly when the
    signature verifies and the expiry is strictly before the current time;
    a verified token that is not expired is returned; a token that does
    not verify (corrupted signature, unknown key, malformed text) fails
    with the parser's error whatever its expiry says. *)
Theorem ValidateToken_expiry_after_signature (g : Globals) (now : Z) (t : Compact) :
  (ValidateToken g now t = Err ErrTokenExpired <->
   exists claims, verified g t claims /\ Expiration claims < now) /\
  (forall claims,
      verified g t claims -> now <= Expiration claims ->
      ValidateToken g now t = Ok claims) /\
  ((forall claims, ~ verified g t claims) ->
   exists msg, ValidateToken g now t = Err (ErrJWT msg)).
Proof.
  unfold ValidateToken, Before. split; [split|split].
  - destruct (ParseWithKeySet_error t (AccountsPublicJWKS g))
      as [[claims Hp]|[msg Hp]]; rewrite Hp; [|discriminate].
    destruct (Z.ltb_spec (Expiration claims) now) as [Hlt|Hge]; [|discriminate].
    intros _. exists claims. split; [apply ParseWithKeySet_ok, Hp | exact Hlt].
  - intros (claims & Hv & Hlt). apply ParseWithKeySet_ok in Hv. rewrite Hv.
    destruct (Z.ltb_spec (Expiration claims) now); [reflexivity | lia].
  - intros claims Hv Hge. apply ParseWithKeySet_ok in Hv. rewrite Hv.
    destruct (Z.ltb_spec (Expiration claims) now); [lia | reflexivity].
  - intros Hnv.
    destruct (ParseWithKeySet_error t (AccountsPublicJWKS g))
      as [[claims Hp]|[msg Hp]].
    + exfalso. apply (Hnv claims), ParseWithKeySet_ok, Hp.
    + rewrite Hp. eauto.
Qed.

(** C9 (amended): [LoadAccountsKeySet] fails, leaving the cached sets as
    they were, when the file cannot be read or is not a key set; a key set
    without keys loads successfully, and it is [signatureAlgoAndKey] that
    then fails with "JWKS is empty". *)
Theorem LoadAccountsKeySet_outcomes (r : Release) (fs : gmap string FileContents)
    (g : Globals) :
  (fs !! AccountsJWKSFile r = None ->
   exists e, LoadAccountsKeySet r fs g = (Err e, g)) /\
  (forall raw, fs !! AccountsJWKSFile r = Some (NotJWKS raw) ->
   exists e, LoadAccountsKeySet r fs g = (Err e, g)) /\
  (forall keys, fs !! AccountsJWKSFile r = Some (JWKSDocument keys) ->
   exists g',
     LoadAccountsKeySet r fs g = (Ok tt, g') /\
     AccountsJWKS g' = Some keys /\
     (keys = [] -> signatureAlgoAndKey g' = Err (ErrorNew "JWKS is empty"))).
Proof.
  unfold LoadAccountsKeySet, ReadFile. split; [|split].
  - intros ->. eauto.
  - intros raw ->. simpl. eauto.
  - intros keys ->. simpl.
    destruct (PublicSetOf_total keys) as (pub & -> & _).
    eexists. split; [reflexivity|]. split; [reflexivity|].
    intros ->. reflexivity.
Qed.

End WithCrypto.


(** C9 (counterexample): a readable, well-formed key set file with zero
    keys is loaded without error. *)
Lemma LoadAccountsKeySet_accepts_empty_set :
  fst (LoadAccountsKeySet (crypto := Examples.crypto) Standard Examples.fsNoKeys initial)
  = Ok tt.
Proof. reflexivity. Qed.


(** The stand-in scheme signs verifiably with the example key. *)
Lemma signsVerifiably_key1 :
  signsVerifiably (crypto := Examples.crypto) "RS256" Examples.key1.
Proof.
  intros input. exists 42%N, {| Key.KeyID := "kid-1"; Key.Algorithm := "RS256";
                               Key.material := PublicKey 42 |}.
  repeat split.
Defined.


(** A verified token without expiry claim is expired at the epoch; the same
    token under another signature is refused by the parser. *)
Lemma ValidateToken_expiry_after_signature_witness :
  ValidateToken (crypto := Examples.crypto) Examples.loaded 0
    (Signed {| alg := "RS256"; kid := "kid-1" |} Examples.tokenGood 42%N)
  = Err ErrTokenExpired /\
  exists msg,
    ValidateToken (crypto := Examples.crypto) Examples.loaded 0
      (Signed {| alg := "RS256"; kid := "kid-1" |} Examples.tokenGood 43%N)
    = Err (ErrJWT msg).
Proof.
  split.
  - apply (ValidateToken_expiry_after_signature (crypto := Examples.crypto)).
    exists Examples.tokenGood. split; [|reflexivity].
    exists {| alg := "RS256"; kid := "kid-1" |}, 42%N,
      [{| Key.KeyID := "kid-1"; Key.Algorithm := "RS256";
          Key.material := PublicKey 42 |}],
      {| Key.KeyID := "kid-1"; Key.Algorithm := "RS256";
         Key.material := PublicKey 42 |}.
    repeat split. discriminate.
  - apply (ValidateToken_expiry_after_signature (crypto := Examples.crypto)).
    intros claims (h & s & keys & k & Ht & Hk & _ & Hl & Hv).
    injection Ht as <- <- <-. injection Hk as <-.
    injection Hl as <-. discriminate Hv.
Defined.

(** Loading a key set file that holds no keys. *)
Lemma LoadAccountsKeySet_outcomes_witness :
  exists g',
    LoadAccountsKeySet (crypto := Examples.crypto) Standard Examples.fsNoKeys initial
    = (Ok tt, g') /\
    AccountsJWKS g' = Some [] /\
    signatureAlgoAndKey g' = Err (ErrorNew "JWKS is empty").
Proof.
  destruct (LoadAccountsKeySet_outcomes (crypto := Examples.crypto) Standard
              Examples.fsNoKeys initial) as (_ & _ & Hload).
  destruct (Hload [] eq_refl) as (g' & Hl & Hk & He).
  exists g'. split; [exact Hl|]. split; [exact Hk|]. apply He. reflexivity.
Defined.

End JwtProofs.

(** ** Package api *)

Module ApiProofs.
Import database api.

Section WithDeps.
Context {S : Type} {deps : Deps S}.

Lemma setQuotaExceeded_flag (u : User.t) (b : bool) :
  User.QuotaExceeded (setQuotaExceeded u b) = b.
Proof. reflexivity. Qed.

Lemma setQuotaExceeded_same (u : User.t) :
  setQuotaExceeded u (User.QuotaExceeded u) = u.
Proof. destruct u; reflexivity. Qed.

Lemma overQuota_gtb (us : UserStats.t) (q : TierLimits.t) :
  (UserStats.NumUploads us >? TierLimits.MaxNumberUploads q)
  || (UserStats.TotalUploadsSize us >? TierLimits.Storage q) = true
  <-> overQuota us q.
Proof.
  unfold overQuota. rewrite orb_true_iff, !Z.gtb_ltb, !Z.ltb_lt. lia.
Qed.

(** C8: once the usage statistics are fetched, [checkUserQuotas] leaves
    the user's flag true exactly when the number of uploads exceeds the
    tier's maximum or the total upload size exceeds the tier's storage, and
    it saves the user only if that value differs from the flag the user
    had. *)
Theorem checkUserQuotas_recompute (s : S) (u : User.t) (us : UserStats.t) :
  UserStats s u = Ok us ->
  (forall u1 msg, fst (UserSave s u1) <> Panic msg) ->
  exists u' s',
    checkUserQuotas s u = Ok (u', s') /\
    (User.QuotaExceeded u' = true <-> overQuota us (UserLimits (User.Tier u))) /\
    u' = setQuotaExceeded u (User.QuotaExceeded u') /\
    (User.QuotaExceeded u' = User.QuotaExceeded u -> s' = s) /\
    (User.QuotaExceeded u' <> User.QuotaExceeded u -> s' = snd (UserSave s u')).
Proof.
  intros Hus Hsave. unfold checkUserQuotas. rewrite Hus.
  pose proof (overQuota_gtb us (UserLimits (User.Tier u))) as Hq.
  set (q := UserLimits (User.Tier u)) in *.
  set (b := (UserStats.NumUploads us >? TierLimits.MaxNumberUploads q)
            || (UserStats.TotalUploadsSize us >? TierLimits.Storage q)) in *.
  cbv zeta. destruct (Bool.eqb b (User.QuotaExceeded u)) eqn:Hb; simpl.
  - apply Bool.eqb_prop in Hb. exists u, s.
    split; [reflexivity|]. split; [rewrite <- Hb; exact Hq|].
    split; [symmetry; apply setQuotaExceeded_same|].
    split; [reflexivity | congruence].
  - apply Bool.eqb_false_iff in Hb.
    specialize (Hsave (setQuotaExceeded u b)).
    destruct (UserSave s (setQuotaExceeded u b)) as [r s'] eqn:Hr. simpl in Hsave.
    exists (setQuotaExceeded u b), s'.
    split; [destruct r; [reflexivity | reflexivity | exfalso; eapply Hsave; reflexivity]|].
    rewrite setQuotaExceeded_flag.
    split; [exact Hq|]. split; [reflexivity|].
    split; [intros E; congruence | intros _; rewrite Hr; reflexivity].
Qed.


(** The credentials login does not consult the token lookup or the token
    validation. *)
Lemma loginPOSTCredentials_token_free (deps' : Deps S)
    (s : S) (w : ResponseWriter) (req req' : Request.t) (email password : string) :
  @UserByEmail S deps' = @UserByEmail S deps ->
  @hashCompare S deps' = @hashCompare S deps ->
  @TokenForUser S deps' = @TokenForUser S deps ->
  @writeCookie S deps' = @writeCookie S deps ->
  @loginPOSTCredentials S deps' s w req' email password
  = @loginPOSTCredentials S deps s w req email password.
Proof.
  intros H1 H2 H3 H4. unfold loginPOSTCredentials, loginUser.
  rewrite H1, H2, H3, H4. reflexivity.
Qed.

End WithDeps.

(** Alice, not over quota so far, has 101 uploads in a tier that allows 100. *)
Lemma checkUserQuotas_recompute_witness :
  UserStats (Deps := Examples.deps) [] Examples.alice
  = Ok {| UserStats.NumUploads := 101; UserStats.TotalUploadsSize := 5 |} /\
  exists u' s',
    checkUserQuotas (deps := Examples.deps) [] Examples.alice = Ok (u', s') /\
    User.QuotaExceeded u' = true /\
    s' = [u'].
Proof.
  split; [reflexivity|].
  destruct (checkUserQuotas_recompute (deps := Examples.deps) [] Examples.alice
              {| UserStats.NumUploads := 101; UserStats.TotalUploadsSize := 5 |})
    as (u' & s' & Hc & Hq & Hu & _ & Hs).
  - reflexivity.
  - intros u1 msg. discriminate.
  - exists u', s'. split; [exact Hc|].
    assert (Hf : User.QuotaExceeded u' = true).
    { apply Hq. left. reflexivity. }
    split; [exact Hf|].
    rewrite Hs; [reflexivity|]. rewrite Hf. discriminate.
Defined.


End ApiProofs.

